(** * The "other commands" dialog of algobot

    A shallow embedding of [algobot/interface/other_commands.py]: the
    [OtherCommands] dialog, its purge action and its CSV export workflow.

    The dialog is a Qt object whose methods run on the UI thread, one slot
    at a time.  A method is embedded as a state transformer over a record
    holding the dialog's attributes, the properties of the widgets it reads
    and writes, and the part of the outside world it touches (file system,
    message boxes shown, runnables constructed, calls made on collaborators).
    A Python exception is the [Raise] outcome; the state reached when it is
    raised is kept, as attribute and widget writes made before it persist. *)

From Stdlib Require Import ZArith Ascii String List Lia Bool.
From stdpp Require Import base decidable option list strings gmap.

Local Open Scope string_scope.
Local Open Scope Z_scope.

(** ** Python strings

    The category names this dialog handles are ASCII; [str.lower] and
    [str.capitalize] are embedded on ASCII letters. *)
Module PyStr.

Definition is_upper (c : ascii) : bool :=
  Nat.leb 65 (nat_of_ascii c) && Nat.leb (nat_of_ascii c) 90.

Definition is_lower (c : ascii) : bool :=
  Nat.leb 97 (nat_of_ascii c) && Nat.leb (nat_of_ascii c) 122.

Definition lower_char (c : ascii) : ascii :=
  if is_upper c then ascii_of_nat (nat_of_ascii c + 32)%nat else c.

Definition upper_char (c : ascii) : ascii :=
  if is_lower c then ascii_of_nat (nat_of_ascii c - 32)%nat else c.

(** [s.lower()] *)
Fixpoint lower (s : string) : string :=
  match s with
  | EmptyString => EmptyString
  | String c r => String (lower_char c) (lower r)
  end.

(** [s.capitalize()]: first character upper-cased, the rest lower-cased. *)
Definition capitalize (s : string) : string :=
  match s with
  | EmptyString => EmptyString
  | String c r => String (upper_char c) (lower r)
  end.

(** [s.startswith(p)] *)
Fixpoint startswith (s p : string) : bool :=
  match p, s with
  | EmptyString, _ => true
  | String a p', String b s' => Ascii.eqb a b && startswith s' p'
  | String _ _, EmptyString => false
  end.

(** [s.endswith("/")] *)
Fixpoint endswith_sep (s : string) : bool :=
  match s with
  | EmptyString => false
  | String c EmptyString => Ascii.eqb c "/"
  | String _ r => endswith_sep r
  end.

(** The newline character of the f-strings. *)
Definition nl : string := String (ascii_of_nat 10) EmptyString.

End PyStr.

(** ** [os.path] and [shutil] on a POSIX file system

    The file system is the set of paths that exist.  [rmtree] is the
    recursive deletion of [shutil.rmtree]: the path itself and every path
    below it are gone afterwards. *)
Module OS.

(** [posixpath.join(a, b)] *)
Definition path_join (a b : string) : string :=
  if PyStr.startswith b "/" then b
  else if String.eqb a "" || PyStr.endswith_sep a then a +:+ b
  else a +:+ "/" +:+ b.

(** [os.path.exists(path)] *)
Definition path_exists (fs : gset string) (path : string) : bool :=
  bool_decide (path ∈ fs).

(** [q] is [path] or lies below it. *)
Definition within (path q : string) : bool :=
  String.eqb q path || PyStr.startswith q (path +:+ "/").

(** [shutil.rmtree(path)] *)
Definition rmtree (path : string) (fs : gset string) : gset string :=
  filter (λ q, within path q = false) fs.

End OS.

(** ** Dates: Python's [datetime] and Qt's [QDate] *)
Module PyDatetime.

(** A [datetime.date] (and the date part of a [datetime.datetime]). *)
Record date := mkdate { year : Z; month : Z; day : Z }.

Definition DI400Y : Z := 146097.
Definition DI100Y : Z := 36524.
Definition DI4Y : Z := 1461.

Definition DAYS_IN_MONTH (m : Z) : Z :=
  nth (Z.to_nat m) [-1; 31; 28; 31; 30; 31; 30; 31; 31; 30; 31; 30; 31] 0.

Definition DAYS_BEFORE_MONTH (m : Z) : Z :=
  nth (Z.to_nat m) [-1; 0; 31; 59; 90; 120; 151; 181; 212; 243; 273; 304; 334] 0.

Definition b2z (b : bool) : Z := if b then 1 else 0.

(** [datetime._ord2ymd(n)]: the proleptic Gregorian date of ordinal [n],
    where 0001-01-01 is ordinal 1. *)
Definition ord2ymd (n : Z) : date :=
  let n := n - 1 in
  let n400 := n / DI400Y in let n := n mod DI400Y in
  let year := n400 * 400 + 1 in
  let n100 := n / DI100Y in let n := n mod DI100Y in
  let n4 := n / DI4Y in let n := n mod DI4Y in
  let n1 := n / 365 in let n := n mod 365 in
  let year := year + (n100 * 100 + n4 * 4 + n1) in
  if (n1 =? 4) || (n100 =? 4) then mkdate (year - 1) 12 31
  else
    let leapyear := (n1 =? 3) && (negb (n4 =? 24) || (n100 =? 3)) in
    let month := Z.shiftr (n + 50) 5 in
    let preceding := DAYS_BEFORE_MONTH month + b2z ((2 <? month) && leapyear) in
    if n <? preceding then
      let month := month - 1 in
      let preceding :=
        preceding - (DAYS_IN_MONTH month + b2z ((month =? 2) && leapyear)) in
      mkdate year month (n - preceding + 1)
    else mkdate year month (n - preceding + 1).

(** [datetime._is_leap(year)] *)
Definition is_leap (year : Z) : bool :=
  (year mod 4 =? 0) && (negb (year mod 100 =? 0) || (year mod 400 =? 0)).

(** [datetime._days_before_year(year)] *)
Definition days_before_year (year : Z) : Z :=
  let y := year - 1 in y * 365 + y / 4 - y / 100 + y / 400.

(** [datetime._days_in_month(year, month)] *)
Definition days_in_month (year month : Z) : Z :=
  if (month =? 2) && is_leap year then 29 else DAYS_IN_MONTH month.

(** [datetime._days_before_month(year, month)] *)
Definition days_before_month (year month : Z) : Z :=
  DAYS_BEFORE_MONTH month + b2z ((2 <? month) && is_leap year).

(** [datetime._ymd2ord(year, month, day)]: the ordinal of a date. *)
Definition ymd2ord (d : date) : Z :=
  days_before_year (year d) + days_before_month (year d) (month d) + day d.

(** The check of [datetime._check_date_fields], without the year bounds. *)
Definition valid_date (d : date) : bool :=
  (1 <=? month d) && (month d <=? 12)
  && (1 <=? day d) && (day d <=? days_in_month (year d) (month d)).

Definition date_eqb (a b : date) : bool :=
  (year a =? year b) && (month a =? month b) && (day a =? day b).

(** [f] holds on [lo], [lo + 1], ..., [count] numbers in all. *)
Fixpoint all_from (count : nat) (lo : Z) (f : Z → bool) : bool :=
  match count with
  | O => true
  | S count' => f lo && all_from count' (lo + 1) f
  end.

(** The date of ordinal [n] is valid and has ordinal [n]. *)
Definition ordinal_agrees (n : Z) : bool :=
  (ymd2ord (ord2ymd n) =? n) && valid_date (ord2ymd n).

(** If day [d] of month [m] of year [y] exists, it is the date of its
    ordinal. *)
Definition date_agrees (y m d : Z) : bool :=
  implb (d <=? days_in_month y m)
        (date_eqb (ord2ymd (ymd2ord (mkdate y m d))) (mkdate y m d)).

(** [date(1970, 1, 1).toordinal()] and [date.max.toordinal()]. *)
Definition EPOCH_ORDINAL : Z := 719163.
Definition MAX_ORDINAL : Z := 3652059.

(** The ordinal of the UTC day that contains Unix time [seconds]. *)
Definition utc_ordinal (seconds : Z) : Z := seconds / 86400 + EPOCH_ORDINAL.

(** Whether [datetime] can represent the instant (years 1 to 9999). *)
Definition in_range (seconds : Z) : bool :=
  (1 <=? utc_ordinal seconds) && (utc_ordinal seconds <=? MAX_ORDINAL).

(** The date fields of [datetime.fromtimestamp(seconds, tz=timezone.utc)];
    [None] where Python raises because the year is out of range. *)
Definition utcfromtimestamp (seconds : Z) : option date :=
  if in_range seconds then Some (ord2ymd (utc_ordinal seconds)) else None.

End PyDatetime.

Module Qt.

(** [QDate(y, m, d)] *)
Record QDate := mkQDate { qyear : Z; qmonth : Z; qday : Z }.

Global Instance QDate_eq_dec : EqDecision QDate.
Proof. solve_decision. Defined.

(** [QDate.toPyDate()] *)
Definition toPyDate (d : QDate) : PyDatetime.date :=
  PyDatetime.mkdate (qyear d) (qmonth d) (qday d).

(** [a == q] for a [datetime.date] [a] and a [QDate] [q]: [date.__eq__]
    declines a [QDate], and the reflected [QDate.__eq__] accepts a
    [datetime.date] wherever a [QDate] is expected, comparing the dates. *)
Definition date_eq_QDate (a : PyDatetime.date) (q : QDate) : bool :=
  (PyDatetime.year a =? qyear q) && (PyDatetime.month a =? qmonth q)
  && (PyDatetime.day a =? qday q).

(** [a <= b] on [QDate]. *)
Definition QDate_le (a b : QDate) : bool :=
  (qyear a <? qyear b)
  || ((qyear a =? qyear b)
      && ((qmonth a <? qmonth b)
          || ((qmonth a =? qmonth b) && (qday a <=? qday b)))).

(** The buttons of a [QMessageBox] this dialog offers. *)
Inductive StandardButton := Yes | No | Open | Close.

Global Instance StandardButton_eq_dec : EqDecision StandardButton.
Proof. solve_decision. Defined.

(** A message box put on screen. *)
Inductive MessageBox :=
| about (title text : string)
| question (title text : string) (buttons : list StandardButton)
| information (title text : string) (buttons : list StandardButton).

(** [QCalendarWidget]: the properties this dialog sets and reads. *)
Record Calendar := mkCalendar {
  minimumDate : QDate;
  maximumDate : QDate;
  selectedDate : QDate
}.

Definition setDateRange (lo hi : QDate) (c : Calendar) : Calendar :=
  mkCalendar lo hi (selectedDate c).

Definition setSelectedDate (d : QDate) (c : Calendar) : Calendar :=
  mkCalendar (minimumDate c) (maximumDate c) d.

End Qt.

Export Qt.

(** ** Exceptions and the dialog monad *)

(** The Python exceptions that occur; [str(e)] is the carried message. *)
Inductive PyExn :=
| TypeError (msg : string)
| AttributeError (msg : string)
| ValueError (msg : string)
| IndexError (msg : string)
| Exception (msg : string).

Definition str (e : PyExn) : string :=
  match e with
  | TypeError m | AttributeError m | ValueError m | IndexError m
  | Exception m => m
  end.

Inductive Res (A : Type) :=
| Ok (a : A)
| Raise (e : PyExn).
Arguments Ok {A} a.
Arguments Raise {A} e.

(** ** Objects the dialog refers to *)

(** A logger, as handed out by the logger factory [helpers.get_logger]:
    identified by the factory's arguments and the number of the call. *)
Record Logger := mkLogger {
  log_file : string;
  logger_name : string;
  serial : nat
}.

(** The parent [QMainWindow]: the attribute this dialog reads and writes. *)
Record MainWindow := mkMainWindow { logger : Logger }.

(** The signals of the two runnables' [signals] objects. *)
Inductive Signal :=
| started | finished | error | restore | locked | csv_finished | progress.

Global Instance Signal_eq_dec : EqDecision Signal.
Proof. solve_decision. Defined.

(** What a signal carries: nothing, a list of dates ([finished]), a string
    ([error], [csv_finished]) or an int and a string ([progress]). *)
Inductive Payload :=
| PNone
| PList (l : list QDate)
| PStr (s : string)
| PIntStr (n : Z) (s : string).

(** The callables that [connect] receives in this file: bound methods of
    the dialog and the two lambdas of lines 86 and 137. *)
Inductive Slot :=
| set_start_date_for_csv_slot
| lambda_generateCSVButton_setEnabled_False
| error_handle_for_csv_start_date_slot
| lambda_stopButton_setEnabled_False
| end_csv_generation_slot
| handle_csv_generation_error_slot
| restore_csv_state_slot
| progress_update_slot
| disable_csv_state_slot.

(** The constructor arguments of the two runnables. *)
Inductive RunnableKind :=
| Worker (fn_logger : Logger)
| DownloadThread (interval symbol : string) (descending armyTime : bool)
                 (startDate : option PyDatetime.date) (dt_logger : Logger).

(** A runnable on the heap: what it was constructed with and the slots
    connected to its signals, in connection order. *)
Record Runnable := mkRunnable {
  kind : RunnableKind;
  connections : list (Signal * Slot)
}.

Definition is_download (r : Runnable) : bool :=
  match kind r with DownloadThread _ _ _ _ _ _ => true | Worker _ => false end.

Definition is_worker (r : Runnable) : bool := negb (is_download r).

(** ** The dialog's state *)

(** Widget properties read or written by this file.  A setter stores the
    value it is given; a getter returns the stored value. *)
Record Widgets := mkWidgets {
  infoLabel : string;
  csvGenerationStatus : string;
  csvGenerationProgressBar : Z;
  generateCSVButton : bool;            (* enabled *)
  stopButton : bool;                   (* enabled *)
  csvGenerationTicker : string;        (* text *)
  csvGenerationTicker_focus : bool;
  csvGenerationDataInterval : string;  (* currentText *)
  descendingDateRadio : bool;          (* isChecked *)
  armyDateRadio : bool;                (* isChecked *)
  startDateCalendar : Calendar
}.

(** The world outside the dialog object. *)
Record World := mkWorld {
  filesystem : gset string;
  shown : list MessageBox;             (* message boxes, oldest first *)
  opened : list string;                (* helpers.open_file_or_folder calls *)
  loggers_created : nat;               (* helpers.get_logger calls *)
  heap : gmap nat Runnable;            (* runnables constructed *)
  next_ref : nat;
  stop_calls : list nat                (* runnables whose stop() was called *)
}.

Record Dialog := mkDialog {
  ui : Widgets;
  parent : option MainWindow;
  threadPool : list nat;               (* runnables started and not returned *)
  csvThread : option nat;
  setDateThread : option nat;
  currentDateList : option (list QDate);
  world : World
}.

(** Field updates. *)
Definition with_ui (f : Widgets → Widgets) (s : Dialog) : Dialog :=
  mkDialog (f (ui s)) (parent s) (threadPool s) (csvThread s)
           (setDateThread s) (currentDateList s) (world s).

Definition with_world (f : World → World) (s : Dialog) : Dialog :=
  mkDialog (ui s) (parent s) (threadPool s) (csvThread s)
           (setDateThread s) (currentDateList s) (f (world s)).

Definition with_parent (p : option MainWindow) (s : Dialog) : Dialog :=
  mkDialog (ui s) p (threadPool s) (csvThread s)
           (setDateThread s) (currentDateList s) (world s).

Definition with_threadPool (f : list nat → list nat) (s : Dialog) : Dialog :=
  mkDialog (ui s) (parent s) (f (threadPool s)) (csvThread s)
           (setDateThread s) (currentDateList s) (world s).

Definition with_csvThread (t : option nat) (s : Dialog) : Dialog :=
  mkDialog (ui s) (parent s) (threadPool s) t
           (setDateThread s) (currentDateList s) (world s).

Definition with_setDateThread (t : option nat) (s : Dialog) : Dialog :=
  mkDialog (ui s) (parent s) (threadPool s) (csvThread s)
           t (currentDateList s) (world s).

Definition with_currentDateList (l : option (list QDate)) (s : Dialog) : Dialog :=
  mkDialog (ui s) (parent s) (threadPool s) (csvThread s)
           (setDateThread s) l (world s).

Definition infoLabel_setText (v : string) (w : Widgets) : Widgets :=
  mkWidgets v (csvGenerationStatus w) (csvGenerationProgressBar w)
    (generateCSVButton w) (stopButton w) (csvGenerationTicker w)
    (csvGenerationTicker_focus w) (csvGenerationDataInterval w)
    (descendingDateRadio w) (armyDateRadio w) (startDateCalendar w).

Definition csvGenerationStatus_setText (v : string) (w : Widgets) : Widgets :=
  mkWidgets (infoLabel w) v (csvGenerationProgressBar w)
    (generateCSVButton w) (stopButton w) (csvGenerationTicker w)
    (csvGenerationTicker_focus w) (csvGenerationDataInterval w)
    (descendingDateRadio w) (armyDateRadio w) (startDateCalendar w).

Definition csvGenerationProgressBar_setValue (v : Z) (w : Widgets) : Widgets :=
  mkWidgets (infoLabel w) (csvGenerationStatus w) v
    (generateCSVButton w) (stopButton w) (csvGenerationTicker w)
    (csvGenerationTicker_focus w) (csvGenerationDataInterval w)
    (descendingDateRadio w) (armyDateRadio w) (startDateCalendar w).

Definition generateCSVButton_setEnabled (v : bool) (w : Widgets) : Widgets :=
  mkWidgets (infoLabel w) (csvGenerationStatus w) (csvGenerationProgressBar w)
    v (stopButton w) (csvGenerationTicker w)
    (csvGenerationTicker_focus w) (csvGenerationDataInterval w)
    (descendingDateRadio w) (armyDateRadio w) (startDateCalendar w).

Definition stopButton_setEnabled (v : bool) (w : Widgets) : Widgets :=
  mkWidgets (infoLabel w) (csvGenerationStatus w) (csvGenerationProgressBar w)
    (generateCSVButton w) v (csvGenerationTicker w)
    (csvGenerationTicker_focus w) (csvGenerationDataInterval w)
    (descendingDateRadio w) (armyDateRadio w) (startDateCalendar w).

Definition csvGenerationTicker_setText (v : string) (w : Widgets) : Widgets :=
  mkWidgets (infoLabel w) (csvGenerationStatus w) (csvGenerationProgressBar w)
    (generateCSVButton w) (stopButton w) v
    (csvGenerationTicker_focus w) (csvGenerationDataInterval w)
    (descendingDateRadio w) (armyDateRadio w) (startDateCalendar w).

Definition csvGenerationTicker_setFocus (v : bool) (w : Widgets) : Widgets :=
  mkWidgets (infoLabel w) (csvGenerationStatus w) (csvGenerationProgressBar w)
    (generateCSVButton w) (stopButton w) (csvGenerationTicker w)
    v (csvGenerationDataInterval w)
    (descendingDateRadio w) (armyDateRadio w) (startDateCalendar w).

Definition startDateCalendar_update (f : Calendar → Calendar) (w : Widgets)
  : Widgets :=
  mkWidgets (infoLabel w) (csvGenerationStatus w) (csvGenerationProgressBar w)
    (generateCSVButton w) (stopButton w) (csvGenerationTicker w)
    (csvGenerationTicker_focus w) (csvGenerationDataInterval w)
    (descendingDateRadio w) (armyDateRadio w) (f (startDateCalendar w)).

Definition set_filesystem (fs : gset string) (w : World) : World :=
  mkWorld fs (shown w) (opened w) (loggers_created w) (heap w) (next_ref w)
          (stop_calls w).

Definition show (b : MessageBox) (w : World) : World :=
  mkWorld (filesystem w) (shown w ++ [b]) (opened w) (loggers_created w)
          (heap w) (next_ref w) (stop_calls w).

Definition record_open (path : string) (w : World) : World :=
  mkWorld (filesystem w) (shown w) (opened w ++ [path]) (loggers_created w)
          (heap w) (next_ref w) (stop_calls w).

Definition count_logger (w : World) : World :=
  mkWorld (filesystem w) (shown w) (opened w) (S (loggers_created w))
          (heap w) (next_ref w) (stop_calls w).

Definition allocate (r : Runnable) (w : World) : World :=
  mkWorld (filesystem w) (shown w) (opened w) (loggers_created w)
          (<[next_ref w := r]> (heap w)) (S (next_ref w)) (stop_calls w).

Definition add_connection (t : nat) (c : Signal * Slot) (w : World) : World :=
  mkWorld (filesystem w) (shown w) (opened w) (loggers_created w)
          (alter (λ r, mkRunnable (kind r) (connections r ++ [c])) t (heap w))
          (next_ref w) (stop_calls w).

Definition record_stop (t : nat) (w : World) : World :=
  mkWorld (filesystem w) (shown w) (opened w) (loggers_created w)
          (heap w) (next_ref w) (stop_calls w ++ [t]).

(** The dialog monad: a computation on the UI thread. *)
Definition M (A : Type) : Type := Dialog → Res A * Dialog.

Definition ret {A} (a : A) : M A := λ s, (Ok a, s).

Definition bind {A B} (m : M A) (k : A → M B) : M B :=
  λ s, match m s with
       | (Ok a, s') => k a s'
       | (Raise e, s') => (Raise e, s')
       end.

Definition raise {A} (e : PyExn) : M A := λ s, (Raise e, s).

Definition get : M Dialog := λ s, (Ok s, s).

Definition modify (f : Dialog → Dialog) : M unit := λ s, (Ok tt, f s).

Declare Scope dialog_scope.
Delimit Scope dialog_scope with dialog.
Notation "x <- m ;; k" := (bind m (λ x, k))
  (at level 100, m at next level, right associativity) : dialog_scope.
Notation "m ;; k" := (bind m (λ _, k))
  (at level 100, right associativity) : dialog_scope.
Local Open Scope dialog_scope.

(** ** The [OtherCommands] dialog *)
Section OtherCommands.

(** [helpers.ROOT_DIR] and [helpers.convert_long_interval]. *)
Variable ROOT_DIR : string.
Variable convert_long_interval : string → string.

(** Modelled from the spec: the logger factory [helpers.get_logger], a black
    box that hands out a logger on each call.  The spec gives it no other
    effect: it is taken to leave the file system and the dialog alone. *)
Definition get_logger (log_file logger_name : string) : M Logger :=
  λ s, (Ok (mkLogger log_file logger_name (loggers_created (world s))),
        with_world count_logger s).

(** [self.parent.logger] *)
Definition parent_logger : M Logger :=
  λ s, match parent s with
       | Some p => (Ok (logger p), s)
       | None =>
           (Raise (AttributeError "'NoneType' object has no attribute 'logger'"), s)
       end.

(** [self.parent.logger = l] *)
Definition set_parent_logger (l : Logger) : M unit :=
  λ s, match parent s with
       | Some _ => (Ok tt, with_parent (Some (mkMainWindow l)) s)
       | None =>
           (Raise (AttributeError "'NoneType' object has no attribute 'logger'"), s)
       end.

(** Constructing a runnable yields a new reference to it. *)
Definition new (k : RunnableKind) : M nat :=
  λ s, (Ok (next_ref (world s)), with_world (allocate (mkRunnable k [])) s).

(** [t.signals.sig.connect(slot)] *)
Definition connect (t : nat) (sig : Signal) (sl : Slot) : M unit :=
  modify (with_world (add_connection t (sig, sl))).

(** [self.threadPool.start(t)] *)
Definition threadPool_start (t : nat) : M unit :=
  modify (with_threadPool (λ pool, (pool ++ [t])%list)).

(** [l[0]] for the attribute [self.currentDateList]. *)
Definition subscript0 (l : option (list QDate)) : M QDate :=
  match l with
  | None => raise (TypeError "'NoneType' object is not subscriptable")
  | Some [] => raise (IndexError "list index out of range")
  | Some (d :: _) => ret d
  end.

(** Line 75: [self.parent.logger = helpers.get_logger(log_file='algobot',
    logger_name='algobot')]. *)
Definition renew_logger : M unit :=
  l <- get_logger "algobot" "algobot" ;;
  set_parent_logger l.

(** Lines 56-75. [answer] is the button the user presses if the
    confirmation box comes up. *)
Definition purge (directory : string) (answer : StandardButton) : M unit :=
  let path := OS.path_join ROOT_DIR directory in
  s <- get ;;
  if negb (OS.path_exists (filesystem (world s)) path) then
    modify (with_world (show
      (about "Warning" ("No " +:+ PyStr.lower directory +:+ " files detected."))))
  else
    let message :=
      "Are you sure you want to delete your " +:+ PyStr.lower directory
      +:+ " files? You might not be able to undo this operation. "
      +:+ PyStr.nl +:+ PyStr.nl
      +:+ "The following path will be deleted: " +:+ PyStr.nl +:+ path in
    modify (with_world (show (question "Warning" message [Yes; No]))) ;;
    s <- get ;;
    match answer with
    | Yes =>
        if OS.path_exists (filesystem (world s)) path then
          modify (with_world (set_filesystem
                                (OS.rmtree path (filesystem (world s))))) ;;
          modify (with_ui (infoLabel_setText
            (PyStr.capitalize directory
             +:+ " files have been successfully deleted."))) ;;
          if String.eqb directory "Logs" then renew_logger else ret tt
        else ret tt
    | _ => ret tt
    end.

(** Lines 77-88. *)
Definition start_date_thread : M unit :=
  modify (with_ui (csvGenerationTicker_setFocus false)) ;;
  modify (with_ui (csvGenerationStatus_setText
                     "Searching for earliest start date..")) ;;
  modify (with_ui (csvGenerationProgressBar_setValue 0)) ;;
  lg <- parent_logger ;;
  t <- new (Worker lg) ;;
  modify (with_setDateThread (Some t)) ;;
  connect t finished set_start_date_for_csv_slot ;;
  connect t started lambda_generateCSVButton_setEnabled_False ;;
  connect t error error_handle_for_csv_start_date_slot ;;
  threadPool_start t.

(** [datetime.fromtimestamp(seconds, tz=timezone.utc)] reduced to its date
    fields.  The code passes [int(ts) / 1000], a float whose fraction of a
    second does not reach the date; [seconds] is its whole part.  Python's
    message for an instant it cannot represent names the year; it is
    shortened here. *)
Definition fromtimestamp_utc (seconds : Z) : M PyDatetime.date :=
  match PyDatetime.utcfromtimestamp seconds with
  | Some d => ret d
  | None => raise (ValueError "year is out of range")
  end.

(** Lines 91-104.  [binanceClient symbol interval] is what
    [_get_earliest_valid_timestamp] answers (a millisecond timestamp, or an
    exception) and [now] is the Unix time of the call. *)
Definition get_start_date_for_csv
    (binanceClient : string → string → Res Z) (now : Z) : M (list QDate) :=
  s <- get ;;
  let symbol := csvGenerationTicker (ui s) in
  let interval := convert_long_interval (csvGenerationDataInterval (ui s)) in
  match binanceClient symbol interval with
  | Raise e => raise e
  | Ok ts =>
      startDate <- fromtimestamp_utc (ts / 1000) ;;
      let qStart := mkQDate (PyDatetime.year startDate)
                      (PyDatetime.month startDate) (PyDatetime.day startDate) in
      endDate <- fromtimestamp_utc now ;;
      let qEnd := mkQDate (PyDatetime.year endDate)
                    (PyDatetime.month endDate) (PyDatetime.day endDate) in
      ret [qStart; qEnd]
  end.

(** Lines 106-114. *)
Definition set_start_date_for_csv (startEndList : list QDate) : M unit :=
  modify (with_currentDateList (Some startEndList)) ;;
  match startEndList with
  | [lo; hi] => modify (with_ui (startDateCalendar_update (setDateRange lo hi)))
  | _ => raise (TypeError "setDateRange(self, QDate, QDate): wrong arguments")
  end ;;
  d <- subscript0 (Some startEndList) ;;
  modify (with_ui (startDateCalendar_update (setSelectedDate d))) ;;
  modify (with_ui (csvGenerationStatus_setText
                     "Setup filtered date successfully.")) ;;
  modify (with_ui (generateCSVButton_setEnabled true)).

(** Lines 116-121. *)
Definition error_handle_for_csv_start_date (error_message : string) : M unit :=
  modify (with_ui (csvGenerationStatus_setText error_message)) ;;
  modify (with_ui (generateCSVButton_setEnabled false)).

(** Lines 123-144. *)
Definition initiate_csv_generation : M unit :=
  s <- get ;;
  let symbol := csvGenerationTicker (ui s) in
  let descending := descendingDateRadio (ui s) in
  let armyTime := armyDateRadio (ui s) in
  let interval := convert_long_interval (csvGenerationDataInterval (ui s)) in
  let selectedDate := toPyDate (selectedDate (startDateCalendar (ui s))) in
  first <- subscript0 (currentDateList s) ;;
  let startDate :=
    if date_eq_QDate selectedDate first then None else Some selectedDate in
  modify (with_ui (csvGenerationStatus_setText "Downloading data...")) ;;
  lg <- parent_logger ;;
  thread <- new (DownloadThread interval symbol descending armyTime startDate lg) ;;
  connect thread locked lambda_stopButton_setEnabled_False ;;
  connect thread csv_finished end_csv_generation_slot ;;
  connect thread error handle_csv_generation_error_slot ;;
  connect thread restore restore_csv_state_slot ;;
  connect thread progress progress_update_slot ;;
  connect thread started disable_csv_state_slot ;;
  modify (with_csvThread (Some thread)) ;;
  threadPool_start thread.

(** Lines 146-153. *)
Definition progress_update (progress : Z) (message : string) : M unit :=
  modify (with_ui (csvGenerationProgressBar_setValue progress)) ;;
  modify (with_ui (csvGenerationStatus_setText message)).

(** Lines 155-173. [choice] is the button the user presses in the
    "Data saved successfully." box. *)
Definition end_csv_generation (savedPath : string) (choice : StandardButton)
  : M unit :=
  let msg := "Successfully saved CSV data to " +:+ savedPath +:+ "." in
  modify (with_ui (csvGenerationStatus_setText msg)) ;;
  modify (with_ui (csvGenerationProgressBar_setValue 100)) ;;
  modify (with_ui (generateCSVButton_setEnabled true)) ;;
  modify (with_world (show
    (information "Data saved successfully."
       ("Successfully saved CSV data to " +:+ savedPath +:+ ".")
       [Open; Close]))) ;;
  match choice with
  | Open => modify (with_world (record_open savedPath))
  | _ => ret tt
  end.

(** Lines 175-177. *)
Definition disable_csv_state : M unit :=
  modify (with_ui (generateCSVButton_setEnabled false)) ;;
  modify (with_ui (stopButton_setEnabled true)).

(** Lines 179-185. *)
Definition restore_csv_state : M unit :=
  modify (with_ui (generateCSVButton_setEnabled true)) ;;
  modify (with_ui (stopButton_setEnabled false)) ;;
  modify (with_csvThread None).

(** Lines 187-193. *)
Definition stop_csv_generation : M unit :=
  s <- get ;;
  match csvThread s with
  | Some t =>
      modify (with_ui (csvGenerationStatus_setText "Canceling download...")) ;;
      modify (with_world (record_stop t))
  | None => ret tt
  end.

(** Lines 195-200. *)
Definition handle_csv_generation_error (e : string) : M unit :=
  modify (with_ui (csvGenerationStatus_setText
                     ("Download failed because of error: " +:+ e))).

(** ** Signals, slots and events *)

(** Calling a connected callable with what the signal carries. [reply] is
    the button the user presses in a modal box the slot opens. *)
Definition call_slot (sl : Slot) (p : Payload) (reply : StandardButton)
  : M unit :=
  match sl, p with
  | set_start_date_for_csv_slot, PList l => set_start_date_for_csv l
  | lambda_generateCSVButton_setEnabled_False, PNone =>
      modify (with_ui (generateCSVButton_setEnabled false))
  | error_handle_for_csv_start_date_slot, PStr m =>
      error_handle_for_csv_start_date m
  | lambda_stopButton_setEnabled_False, PNone =>
      modify (with_ui (stopButton_setEnabled false))
  | end_csv_generation_slot, PStr path => end_csv_generation path reply
  | handle_csv_generation_error_slot, PStr e => handle_csv_generation_error e
  | restore_csv_state_slot, PNone => restore_csv_state
  | progress_update_slot, PIntStr n m => progress_update n m
  | disable_csv_state_slot, PNone => disable_csv_state
  | _, _ => raise (TypeError "slot called with the wrong arguments")
  end.

Fixpoint call_all (sls : list Slot) (p : Payload) (reply : StandardButton)
  : M unit :=
  match sls with
  | [] => ret tt
  | sl :: rest => call_slot sl p reply ;; call_all rest p reply
  end.

(** The slots connected to signal [sig], in connection order. *)
Definition slots_of (sig : Signal) (cs : list (Signal * Slot)) : list Slot :=
  map snd (filter (λ c, fst c = sig) cs).

(** Delivery on the UI thread of [t.signals.sig.emit(p)]. *)
Definition emit (t : nat) (sig : Signal) (p : Payload) (reply : StandardButton)
  : M unit :=
  s <- get ;;
  match heap (world s) !! t with
  | Some r => call_all (slots_of sig (connections r)) p reply
  | None => ret tt
  end.

(** The declared argument types of the signals. *)
Definition carries (sig : Signal) (p : Payload) : bool :=
  match sig, p with
  | started, PNone | restore, PNone | locked, PNone => true
  | finished, PList _ => true
  | error, PStr _ | csv_finished, PStr _ => true
  | progress, PIntStr _ _ => true
  | _, _ => false
  end.

(** The widget signals wired by [load_slots] (lines 44-54). *)
Inductive UiSignal :=
| generateCSVButton_clicked
| stopButton_clicked
| csvGenerationTicker_editingFinished
| purgeLogsButton_clicked
| purgeDatabasesButton_clicked
| purgeBacktestResultsButton_clicked
| purgeConfigurationFilesButton_clicked
| purgeCredentialsButton_clicked
| purgeCSVFilesButton_clicked.

(** [load_slots]: the callable connected to each widget signal. *)
Definition load_slots (e : UiSignal) (reply : StandardButton) : M unit :=
  match e with
  | generateCSVButton_clicked => initiate_csv_generation
  | stopButton_clicked => stop_csv_generation
  | csvGenerationTicker_editingFinished => start_date_thread
  | purgeLogsButton_clicked => purge "Logs" reply
  | purgeDatabasesButton_clicked => purge "Databases" reply
  | purgeBacktestResultsButton_clicked => purge "Backtest Results" reply
  | purgeConfigurationFilesButton_clicked => purge "Configuration" reply
  | purgeCredentialsButton_clicked => purge "Credentials" reply
  | purgeCSVFilesButton_clicked => purge "CSV" reply
  end.

(** The six purge buttons and the category each one is wired to. *)
Definition purge_buttons : list (UiSignal * string) :=
  [ (purgeLogsButton_clicked, "Logs");
    (purgeDatabasesButton_clicked, "Databases");
    (purgeBacktestResultsButton_clicked, "Backtest Results");
    (purgeConfigurationFilesButton_clicked, "Configuration");
    (purgeCredentialsButton_clicked, "Credentials");
    (purgeCSVFilesButton_clicked, "CSV") ].

(** [__init__] (lines 19-30): [loaded] is what the .ui file gives the
    widgets, [fs] the file system at that time. *)
Definition init (parent : option MainWindow) (loaded : Widgets)
    (fs : gset string) : Dialog :=
  mkDialog loaded parent [] None None None (mkWorld fs [] [] 0 ∅ 0 []).

(** The runnable leaves the pool when its [run] returns. *)
Definition runnable_returns (t : nat) : M unit :=
  modify (with_threadPool (filter (λ u, u ≠ t))).

(** Modelled from the spec: [listThread.Worker], "fire-and-forget with
    callback-based result delivery back onto the UI thread".  It announces
    itself with [started]; it then runs the task and delivers the result
    with [finished], or the text of the exception with [error]. *)
Definition Worker_started (t : nat) : M unit := emit t started PNone No.

Definition Worker_run (t : nat) (binanceClient : string → string → Res Z)
    (now : Z) : M unit :=
  λ s, match get_start_date_for_csv binanceClient now s with
       | (Ok items, s') => (emit t finished (PList items) No ;;
                            runnable_returns t) s'
       | (Raise e, s') => (emit t error (PStr (str e)) No ;;
                           runnable_returns t) s'
       end.

(** What can happen to the dialog: the user acts on a widget, or a
    runnable in the pool reports. The download thread is external; any of
    its signals may arrive while it is in the pool. *)
Inductive Event :=
| Ui (e : UiSignal) (reply : StandardButton)
| UserTypesTicker (text : string)
| UserPicksDate (d : QDate)
| WorkerStarts (t : nat)
| WorkerRuns (t : nat) (binanceClient : string → string → Res Z) (now : Z)
| DownloadEmits (t : nat) (sig : Signal) (p : Payload) (reply : StandardButton)
| DownloadReturns (t : nat).

Definition has_kind (P : Runnable → bool) (s : Dialog) (t : nat) : bool :=
  match heap (world s) !! t with Some r => P r | None => false end.

Definition pooled (P : Runnable → bool) (s : Dialog) (t : nat) : bool :=
  bool_decide (t ∈ threadPool s) && has_kind P s t.

(** Whether the event can occur in state [s]: a disabled button cannot be
    clicked, the calendar offers the dates of its range, and only a
    runnable in the pool reports. *)
Definition enabled (ev : Event) (s : Dialog) : bool :=
  match ev with
  | Ui generateCSVButton_clicked _ => generateCSVButton (ui s)
  | Ui stopButton_clicked _ => stopButton (ui s)
  | Ui _ _ => true
  | UserTypesTicker _ => true
  | UserPicksDate d =>
      QDate_le (minimumDate (startDateCalendar (ui s))) d
      && QDate_le d (maximumDate (startDateCalendar (ui s)))
  | WorkerStarts t | WorkerRuns t _ _ => pooled is_worker s t
  | DownloadEmits t sig p _ => pooled is_download s t && carries sig p
  | DownloadReturns t => pooled is_download s t
  end.

Definition handle (ev : Event) : M unit :=
  match ev with
  | Ui e reply => load_slots e reply
  | UserTypesTicker text => modify (with_ui (csvGenerationTicker_setText text))
  | UserPicksDate d =>
      modify (with_ui (startDateCalendar_update (setSelectedDate d)))
  | WorkerStarts t => Worker_started t
  | WorkerRuns t binanceClient now => Worker_run t binanceClient now
  | DownloadEmits t sig p reply => emit t sig p reply
  | DownloadReturns t => runnable_returns t
  end.

(** Running a sequence of events; [None] when one of them cannot occur. An
    exception that escapes a slot ends that slot only. *)
Fixpoint run (evs : list Event) (s : Dialog) : option Dialog :=
  match evs with
  | [] => Some s
  | ev :: rest => if enabled ev s then run rest (snd (handle ev s)) else None
  end.




End OtherCommands.

(** ** Reachable states and the dialog's invariant *)

(** The connections the two runnables carry once they are in the pool. *)
Definition worker_connections : list (Signal * Slot) :=
  [ (finished, set_start_date_for_csv_slot);
    (started, lambda_generateCSVButton_setEnabled_False);
    (error, error_handle_for_csv_start_date_slot) ].

Definition download_connections : list (Signal * Slot) :=
  [ (locked, lambda_stopButton_setEnabled_False);
    (csv_finished, end_csv_generation_slot);
    (error, handle_csv_generation_error_slot);
    (restore, restore_csv_state_slot);
    (progress, progress_update_slot);
    (started, disable_csv_state_slot) ].

(** A state of the dialog some sequence of events leads to. *)
Definition reachable (ROOT_DIR : string) (cli : string → string) (s : Dialog)
  : Prop :=
  ∃ parent loaded fs evs, run ROOT_DIR cli evs (init parent loaded fs) = Some s.

(** What every reachable state satisfies: references are allocated, a
    runnable exists only if there is a parent window, its connections are
    the ones made at its construction, and a stored date list is a pair. *)
Record wf (s : Dialog) : Prop := mkwf {
  wf_pool : ∀ t, t ∈ threadPool s → (t < next_ref (world s))%nat;
  wf_heap : ∀ t r, heap (world s) !! t = Some r →
            (t < next_ref (world s))%nat
            ∧ is_Some (parent s)
            ∧ connections r =
                (if is_download r then download_connections
                 else worker_connections);
  wf_dates : ∀ l, currentDateList s = Some l →
             is_Some (parent s) ∧ length l = 2%nat
}.

(** The confirmation box of a purge. *)
Definition confirmation (ROOT_DIR : string) (directory : string) : MessageBox :=
  question "Warning"
    ("Are you sure you want to delete your " +:+ PyStr.lower directory
     +:+ " files? You might not be able to undo this operation. "
     +:+ PyStr.nl +:+ PyStr.nl
     +:+ "The following path will be deleted: " +:+ PyStr.nl
     +:+ OS.path_join ROOT_DIR directory)
    [Yes; No].

(** The state a confirmed purge of an existing path leaves, up to the
    logger renewal. *)
Definition purged (ROOT_DIR : string) (directory : string) (s : Dialog)
  : Dialog :=
  let path := OS.path_join ROOT_DIR directory in
  with_ui (infoLabel_setText
             (PyStr.capitalize directory
              +:+ " files have been successfully deleted."))
    (with_world (λ w, set_filesystem (OS.rmtree path (filesystem w)) w)
       (with_world (show (confirmation ROOT_DIR directory)) s)).

(** The state [start_date_thread] leaves when there is a parent window
    [p]: the widgets are reset and a worker with its three connections is
    in the pool. *)
Definition lookup_started (p : MainWindow) (s : Dialog) : Dialog :=
  let n := next_ref (world s) in
  let w := world s in
  mkDialog
    (csvGenerationProgressBar_setValue 0
       (csvGenerationStatus_setText "Searching for earliest start date.."
          (csvGenerationTicker_setFocus false (ui s))))
    (parent s) (threadPool s ++ [n]) (csvThread s) (Some n)
    (currentDateList s)
    (mkWorld (filesystem w) (shown w) (opened w) (loggers_created w)
       (<[n := mkRunnable (Worker (logger p)) worker_connections]> (heap w))
       (S n) (stop_calls w)).

(** The start date [initiate_csv_generation] hands to the download thread
    when the stored date list starts with [first]. *)
Definition chosen_start_date (first : QDate) (s : Dialog)
  : option PyDatetime.date :=
  let selected := toPyDate (selectedDate (startDateCalendar (ui s))) in
  if date_eq_QDate selected first then None else Some selected.

(** The download thread [initiate_csv_generation] constructs. *)
Definition download_thread (cli : string → string) (p : MainWindow)
    (first : QDate) (s : Dialog) : Runnable :=
  mkRunnable
    (DownloadThread (cli (csvGenerationDataInterval (ui s)))
       (csvGenerationTicker (ui s)) (descendingDateRadio (ui s))
       (armyDateRadio (ui s)) (chosen_start_date first s) (logger p))
    download_connections.

(** The state [initiate_csv_generation] leaves when there is a parent
    window [p] and the stored date list starts with [first]. *)
Definition download_started (cli : string → string) (p : MainWindow)
    (first : QDate) (s : Dialog) : Dialog :=
  let n := next_ref (world s) in
  let w := world s in
  mkDialog
    (csvGenerationStatus_setText "Downloading data..." (ui s))
    (parent s) (threadPool s ++ [n]) (Some n) (setDateThread s)
    (currentDateList s)
    (mkWorld (filesystem w) (shown w) (opened w) (loggers_created w)
       (<[n := download_thread cli p first s]> (heap w))
       (S n) (stop_calls w)).

(** The state [set_start_date_for_csv [lo; hi]] leaves. *)
Definition range_installed (lo hi : QDate) (s : Dialog) : Dialog :=
  mkDialog
    (generateCSVButton_setEnabled true
       (csvGenerationStatus_setText "Setup filtered date successfully."
          (startDateCalendar_update (λ _, mkCalendar lo hi lo) (ui s))))
    (parent s) (threadPool s) (csvThread s) (setDateThread s)
    (Some [lo; hi]) (world s).

(** [QDate(d.year, d.month, d.day)] *)
Definition QDate_of (d : PyDatetime.date) : QDate :=
  mkQDate (PyDatetime.year d) (PyDatetime.month d) (PyDatetime.day d).

(** ** Sample states *)
Module Sample.

Definition ROOT_DIR : string := "/home/trader/algobot".

Definition convert_long_interval (longInterval : string) : string :=
  if String.eqb longInterval "1 Day" then "1d" else longInterval.

Definition loaded : Widgets :=
  mkWidgets "" "" 0 false false "BTCUSDT" true "1 Day" false false
    (mkCalendar (mkQDate 2000 1 1) (mkQDate 2100 1 1) (mkQDate 2021 1 1)).

Definition files : gset string :=
  {[ "/home/trader/algobot/Logs";
     "/home/trader/algobot/Logs/2021-03-01.log";
     "/home/trader/algobot/Databases";
     "/home/trader/algobot/Backtest Results";
     "/home/trader/algobot/Configuration";
     "/home/trader/algobot/Credentials";
     "/home/trader/algobot/CSV";
     "/home/trader/algobot/CSV/BTCUSDT/data.csv" ]}.

Definition main_window : MainWindow :=
  mkMainWindow (mkLogger "algobot" "algobot" 0).

Definition s0 : Dialog := init (Some main_window) loaded files.

(** The earliest BTCUSDT kline, 2017-08-17 04:00 UTC, and a lookup made on
    2021-03-01 12:00 UTC. *)
Definition binanceClient (symbol interval : string) : Res Z := Ok 1502942400000.
Definition now : Z := 1614600000.

Definition editing := Ui csvGenerationTicker_editingFinished No.
Definition generate := Ui generateCSVButton_clicked No.

(** The ticker is entered and the lookup completes. *)
Definition lookup_done : list Event :=
  [ editing; WorkerStarts 0; WorkerRuns 0 binanceClient now ].

(** A download is started, and while it runs the ticker is entered again;
    the second lookup completes and the user clicks generate again. *)
Definition lookup_during_download : list Event :=
  lookup_done ++
  [ generate; DownloadEmits 1 started PNone No;
    editing; WorkerStarts 2; WorkerRuns 2 binanceClient now;
    generate ].

Definition after (evs : list Event) : Dialog :=
  default s0 (run ROOT_DIR convert_long_interval evs s0).

(** Whether the events can occur one after the other from [s0]. *)
Definition runs (evs : list Event) : bool :=
  match run ROOT_DIR convert_long_interval evs s0 with
  | Some _ => true
  | None => false
  end.

(** A download is in flight: the lookup is done and generate was clicked. *)
Definition downloading : list Event :=
  lookup_done ++ [ generate; DownloadEmits 1 started PNone No ].


(** A market-data client that fails. *)
Definition failingClient (symbol interval : string) : Res Z :=
  Raise (Exception "Invalid symbol.").


End Sample.

(** ** What else reachable states satisfy *)

(** The attributes refer to runnables of the right class, [stop] has only
    been called on download threads, and a stored date list is the range
    of the calendar. *)
Record refs_ok (s : Dialog) : Prop := mkrefs_ok {
  csvThread_download :
    ∀ t, csvThread s = Some t → has_kind is_download s t = true;
  setDateThread_worker :
    ∀ t, setDateThread s = Some t → has_kind is_worker s t = true;
  stop_calls_download :
    ∀ t, t ∈ stop_calls (world s) → has_kind is_download s t = true;
  range_stored :
    ∀ l, currentDateList s = Some l →
         l = [minimumDate (startDateCalendar (ui s));
              maximumDate (startDateCalendar (ui s))]
}.

(** Where a month starts in a year and how long it is, by whether the
    year is a leap year: [_days_before_month] and [_days_in_month]. *)
Definition month_start (leap : bool) (m : Z) : Z :=
  PyDatetime.DAYS_BEFORE_MONTH m + PyDatetime.b2z ((2 <? m) && leap).

Definition month_length (leap : bool) (m : Z) : Z :=
  if (m =? 2) && leap then 29 else PyDatetime.DAYS_IN_MONTH m.

(** A month ends before any later month starts. *)
Definition months_ordered (leap : bool) : bool :=
  PyDatetime.all_from 12 1 (λ m,
    PyDatetime.all_from 12 1 (λ m',
      implb (m <? m')
            (month_start leap m + month_length leap m <=? month_start leap m'))).

(** Every month lies within the year. *)
Definition months_fit (leap : bool) : bool :=
  PyDatetime.all_from 12 1 (λ m,
    (0 <=? month_start leap m)
    && (month_start leap m + month_length leap m
        <=? 365 + PyDatetime.b2z leap)).

(** [a < b] on dates: year, then month, then day. *)
Definition date_lt (a b : PyDatetime.date) : Prop :=
  PyDatetime.year a < PyDatetime.year b
  ∨ PyDatetime.year a = PyDatetime.year b
    ∧ (PyDatetime.month a < PyDatetime.month b
       ∨ PyDatetime.month a = PyDatetime.month b
         ∧ PyDatetime.day a < PyDatetime.day b).

(** What [os.path.join] puts before a relative name. *)
Definition root_prefix (root : string) : string :=
  if String.eqb root "" || PyStr.endswith_sep root then root
  else root +:+ "/".

(** A click on a purge button that the user confirms. *)
Definition is_confirmed_purge (ev : Event) : bool :=
  match ev with
  | Ui purgeLogsButton_clicked Yes
  | Ui purgeDatabasesButton_clicked Yes
  | Ui purgeBacktestResultsButton_clicked Yes
  | Ui purgeConfigurationFilesButton_clicked Yes
  | Ui purgeCredentialsButton_clicked Yes
  | Ui purgeCSVFilesButton_clicked Yes => true
  | _ => false
  end.

(** More of the sample dialog. *)
Module Scenario.

(** The sample dialog without a parent window. *)
Definition orphan : Dialog := init None Sample.loaded Sample.files.

(** A market-data client whose timestamp [datetime] cannot represent. *)
Definition farFuture (symbol interval : string) : Res Z :=
  Ok 999999999999999999.

(** The same day as the earliest kline, one millisecond before midnight. *)
Definition sameDay (symbol interval : string) : Res Z := Ok 1503014399999.

(** Two downloads are in flight and the user clicks stop. *)
Definition stop_with_two : list Event :=
  Sample.lookup_during_download
  ++ [ DownloadEmits 3 started PNone No ].

(** The download has been stopped once. *)
Definition stopped : list Event :=
  Sample.downloading ++ [ Ui stopButton_clicked No ].

End Scenario.

(** * Properties *)

(** ** Paths and the file system *)

Lemma path_exists_true fs path : OS.path_exists fs path = true ↔ path ∈ fs.
Proof. unfold OS.path_exists. apply bool_decide_eq_true. Qed.



Lemma elem_of_rmtree path fs q :
  q ∈ OS.rmtree path fs ↔ q ∈ fs ∧ OS.within path q = false.
Proof. unfold OS.rmtree. rewrite elem_of_filter. tauto. Qed.


(** The six wired categories are relative names: they resolve below
    [ROOT_DIR]. *)
Lemma wired_categories_below_root (root : string) b directory :
  In (b, directory) purge_buttons →
  OS.path_join root directory =
    if String.eqb root "" || PyStr.endswith_sep root
    then root +:+ directory else root +:+ "/" +:+ directory.
Proof.
  intros H. repeat (destruct H as [H | H]; [inversion H; reflexivity |]).
  destruct H.
Qed.

Section Purge.

Variable ROOT_DIR : string.
Variable convert_long_interval : string → string.

Lemma purge_confirmed directory s :
  OS.path_exists (filesystem (world s)) (OS.path_join ROOT_DIR directory) = true →
  purge ROOT_DIR directory Yes s =
    if String.eqb directory "Logs"
    then renew_logger (purged ROOT_DIR directory s)
    else (Ok tt, purged ROOT_DIR directory s).
Proof.
  intros Hex. unfold purge, bind, get, modify. simpl.
  rewrite Hex. simpl. rewrite Hex.
  destruct (String.eqb directory "Logs"); reflexivity.
Qed.

Lemma purge_missing directory answer s :
  OS.path_exists (filesystem (world s)) (OS.path_join ROOT_DIR directory) = false →
  purge ROOT_DIR directory answer s =
    (Ok tt,
     with_world
       (show (about "Warning"
                ("No " +:+ PyStr.lower directory +:+ " files detected."))) s).
Proof.
  intros Hex. unfold purge, bind, get, modify. simpl.
  rewrite Hex. reflexivity.
Qed.

Lemma purge_declined directory answer s :
  answer ≠ Yes →
  OS.path_exists (filesystem (world s)) (OS.path_join ROOT_DIR directory) = true →
  purge ROOT_DIR directory answer s
  = (Ok tt, with_world (show (confirmation ROOT_DIR directory)) s).
Proof.
  intros Hans Hex. unfold purge, bind, get, modify. simpl.
  rewrite Hex. destruct answer; try reflexivity. congruence.
Qed.

Lemma load_slots_purge b directory reply :
  In (b, directory) purge_buttons →
  load_slots ROOT_DIR convert_long_interval b reply
  = purge ROOT_DIR directory reply.
Proof.
  intros H. repeat (destruct H as [H | H]; [inversion H; reflexivity |]).
  destruct H.
Qed.

(** The logger renewal touches neither the widgets nor the file system. *)
Lemma renew_logger_frame s :
  let s' := snd (renew_logger s) in
  ui s' = ui s ∧ filesystem (world s') = filesystem (world s)
  ∧ shown (world s') = shown (world s).
Proof.
  unfold renew_logger, bind, get_logger, set_parent_logger. simpl.
  destruct (parent s); simpl; auto.
Qed.



(** C9. With a parent window, a confirmed purge of 'Logs' puts the logger
    that the factory creates in this call in place of the parent's logger;
    a purge of any other category, confirmed or not, leaves the parent's
    logger as it is and does not call the factory. *)
Theorem logs_purge_renews_logger s p :
  parent s = Some p →
  (OS.path_exists (filesystem (world s)) (OS.path_join ROOT_DIR "Logs") = true →
   let r := load_slots ROOT_DIR convert_long_interval purgeLogsButton_clicked Yes s in
   fst r = Ok tt
   ∧ parent (snd r) =
       Some (mkMainWindow
               (mkLogger "algobot" "algobot" (loggers_created (world s))))
   ∧ loggers_created (world (snd r)) = S (loggers_created (world s)))
  ∧ (∀ b directory answer,
       In (b, directory) purge_buttons → directory ≠ "Logs" →
       let r := load_slots ROOT_DIR convert_long_interval b answer s in
       fst r = Ok tt ∧ parent (snd r) = parent s
       ∧ loggers_created (world (snd r)) = loggers_created (world s)).
Proof.
  intros Hp. split.
  - intros Hex r. subst r.
    change (load_slots ROOT_DIR convert_long_interval
              purgeLogsButton_clicked Yes s)
      with (purge ROOT_DIR "Logs" Yes s).
    rewrite (purge_confirmed _ _ Hex). simpl String.eqb. cbv iota.
    unfold renew_logger, bind, get_logger, set_parent_logger. simpl. rewrite Hp. simpl. auto.
  - intros b directory answer Hb Hne r. subst r.
    rewrite (load_slots_purge _ _ _ Hb).
    destruct (OS.path_exists (filesystem (world s))
                (OS.path_join ROOT_DIR directory)) eqn:Hex.
    + destruct (decide (answer = Yes)) as [-> | Hans].
      * rewrite (purge_confirmed _ _ Hex).
        destruct (String.eqb_spec directory "Logs") as [-> | _]; [easy |].
        simpl. auto.
      * rewrite (purge_declined _ _ _ Hans Hex). simpl. auto.
    + rewrite (purge_missing _ _ _ Hex). simpl. auto.
Qed.

End Purge.

(** ** Starting the runnables *)

Section Csv.

Variable ROOT_DIR : string.
Variable convert_long_interval : string → string.

Ltac unfold_dialog :=
  unfold start_date_thread, initiate_csv_generation, set_start_date_for_csv,
    error_handle_for_csv_start_date, progress_update, end_csv_generation,
    disable_csv_state, restore_csv_state, stop_csv_generation,
    handle_csv_generation_error, get_start_date_for_csv, fromtimestamp_utc,
    connect, new, threadPool_start, parent_logger, subscript0,
    bind, ret, raise, get, modify.

(** Running straight-line dialog code on an explicit state, leaving the
    heap operations folded. *)
Ltac run_dialog :=
  cbv [start_date_thread initiate_csv_generation
       connect new threadPool_start parent_logger subscript0
       bind ret raise get modify
       with_ui with_world with_parent with_threadPool with_csvThread
       with_setDateThread with_currentDateList
       allocate add_connection
       ui parent threadPool csvThread setDateThread currentDateList world
       filesystem shown opened loggers_created heap next_ref stop_calls
       lookup_started download_started download_thread chosen_start_date].

Lemma start_date_thread_ok s p :
  parent s = Some p → start_date_thread s = (Ok tt, lookup_started p s).
Proof.
  destruct s as [u par pool ct dt cl [fs sh op lc h n st]].
  simpl. intros ->. run_dialog.
  rewrite !alter_insert_eq. reflexivity.
Qed.

Lemma start_date_thread_orphan s :
  parent s = None →
  start_date_thread s =
    (Raise (AttributeError "'NoneType' object has no attribute 'logger'"),
     with_ui (λ u, csvGenerationProgressBar_setValue 0
                     (csvGenerationStatus_setText
                        "Searching for earliest start date.."
                        (csvGenerationTicker_setFocus false u))) s).
Proof. intros Hp. unfold_dialog. simpl. rewrite Hp. reflexivity. Qed.

Lemma initiate_csv_generation_ok s p first rest :
  parent s = Some p → currentDateList s = Some (first :: rest) →
  initiate_csv_generation convert_long_interval s
  = (Ok tt, download_started convert_long_interval p first s).
Proof.
  destruct s as [u par pool ct dt cl [fs sh op lc h n st]].
  simpl. intros -> ->. run_dialog.
  rewrite !alter_insert_eq. reflexivity.
Qed.

Lemma initiate_csv_generation_no_dates s :
  currentDateList s = None →
  initiate_csv_generation convert_long_interval s
  = (Raise (TypeError "'NoneType' object is not subscriptable"), s).
Proof. intros Hl. unfold_dialog. simpl. rewrite Hl. reflexivity. Qed.

Lemma set_start_date_for_csv_pair lo hi s :
  set_start_date_for_csv [lo; hi] s = (Ok tt, range_installed lo hi s).
Proof. reflexivity. Qed.

Lemma date_eq_QDate_spec d q : date_eq_QDate (toPyDate d) q = true ↔ d = q.
Proof.
  destruct d as [y m a], q as [y' m' a']. unfold date_eq_QDate. simpl.
  rewrite !andb_true_iff, !Z.eqb_eq. split.
  - intros [[-> ->] ->]. reflexivity.
  - intros H. inversion H. auto.
Qed.

(** ** The invariant holds in every reachable state *)

Lemma wf_frame s s' :
  threadPool s' = threadPool s →
  next_ref (world s') = next_ref (world s) →
  heap (world s') = heap (world s) →
  (is_Some (parent s) → is_Some (parent s')) →
  currentDateList s' = currentDateList s →
  wf s → wf s'.
Proof.
  intros Hpool Hn Hh Hp Hl [H1 H2 H3]. split.
  - intros t. rewrite Hpool, Hn. apply H1.
  - intros t r. rewrite Hh, Hn. intros Ht.
    destruct (H2 t r Ht) as (? & ? & ?). auto.
  - intros l. rewrite Hl. intros Hd. destruct (H3 l Hd). auto.
Qed.

Lemma wf_init parent loaded fs : wf (init parent loaded fs).
Proof.
  split; simpl.
  - intros t Ht. inversion Ht.
  - intros t r Ht. rewrite lookup_empty in Ht. discriminate.
  - intros l Hl. discriminate.
Qed.

Lemma wf_allocated (s s' : Dialog) r :
  wf s → is_Some (parent s) →
  connections r
  = (if is_download r then download_connections else worker_connections) →
  threadPool s' = (threadPool s ++ [next_ref (world s)])%list →
  next_ref (world s') = S (next_ref (world s)) →
  heap (world s') = <[next_ref (world s) := r]> (heap (world s)) →
  parent s' = parent s →
  currentDateList s' = currentDateList s →
  wf s'.
Proof.
  intros [H1 H2 H3] Hp Hc Hpool Hn Hh Hp' Hl. split.
  - intros t. rewrite Hpool, Hn, elem_of_app, list_elem_of_singleton.
    intros [Ht | ->]; [apply H1 in Ht |]; lia.
  - intros t r'. rewrite Hh, Hn, Hp', lookup_insert.
    destruct (decide (next_ref (world s) = t)) as [<- | Hne].
    + intros [= <-]. repeat split; auto.
    + intros Ht. destruct (H2 t r' Ht) as (? & ? & ?). repeat split; auto.
  - intros l. rewrite Hl, Hp'. apply H3.
Qed.

Lemma wf_lookup_started s p :
  wf s → parent s = Some p → wf (lookup_started p s).
Proof.
  intros Hwf Hp.
  apply (wf_allocated s _ (mkRunnable (Worker (logger p)) worker_connections));
    try reflexivity; auto.
Qed.

Lemma wf_download_started s p first :
  wf s → parent s = Some p →
  wf (download_started convert_long_interval p first s).
Proof.
  intros Hwf Hp.
  apply (wf_allocated s _ (download_thread convert_long_interval p first s));
    try reflexivity; auto.
Qed.

Lemma wf_range_installed s lo hi :
  wf s → is_Some (parent s) → wf (range_installed lo hi s).
Proof.
  intros [H1 H2 H3] Hp. split; simpl; auto.
  intros l [= <-]. auto.
Qed.

Lemma wf_start_date_thread s : wf s → wf (snd (start_date_thread s)).
Proof.
  intros Hwf. destruct (parent s) as [p |] eqn:Hp.
  - rewrite (start_date_thread_ok _ _ Hp). now apply wf_lookup_started.
  - rewrite (start_date_thread_orphan _ Hp).
    revert Hwf. apply wf_frame; auto.
Qed.

Lemma wf_initiate_csv_generation s :
  wf s → wf (snd (initiate_csv_generation convert_long_interval s)).
Proof.
  intros Hwf. destruct (currentDateList s) as [[| first rest] |] eqn:Hl.
  - destruct (wf_dates _ Hwf _ Hl) as [_ Hlen]. discriminate Hlen.
  - destruct (wf_dates _ Hwf _ Hl) as [[p Hp] _].
    rewrite (initiate_csv_generation_ok _ _ _ _ Hp Hl).
    now apply wf_download_started.
  - now rewrite (initiate_csv_generation_no_dates _ Hl).
Qed.

Lemma wf_stop_csv_generation s : wf s → wf (snd (stop_csv_generation s)).
Proof.
  unfold_dialog. simpl. destruct (csvThread s); simpl; auto.
  apply wf_frame; auto.
Qed.

Lemma wf_purge directory answer s :
  wf s → wf (snd (purge ROOT_DIR directory answer s)).
Proof.
  destruct (OS.path_exists (filesystem (world s))
              (OS.path_join ROOT_DIR directory)) eqn:Hex.
  - destruct (decide (answer = Yes)) as [-> | Hans].
    + rewrite (purge_confirmed _ _ _ Hex).
      destruct (String.eqb directory "Logs"); [| apply wf_frame; auto].
      unfold renew_logger, bind, get_logger, set_parent_logger. simpl.
      destruct (parent s) eqn:Hp; simpl; apply wf_frame; simpl; auto.
    + rewrite (purge_declined _ _ _ _ Hans Hex). apply wf_frame; auto.
  - rewrite (purge_missing _ _ _ _ Hex). apply wf_frame; auto.
Qed.

Lemma wf_load_slots e reply s :
  wf s → wf (snd (load_slots ROOT_DIR convert_long_interval e reply s)).
Proof.
  destruct e; simpl;
    auto using wf_initiate_csv_generation, wf_stop_csv_generation,
      wf_start_date_thread, wf_purge.
Qed.

(** Every slot but [set_start_date_for_csv] leaves the pool, the heap and
    the stored date list alone. *)
Lemma wf_call_slot sl p reply s :
  sl ≠ set_start_date_for_csv_slot →
  wf s → wf (snd (call_slot sl p reply s)).
Proof.
  intros Hsl.
  destruct sl, p; try congruence; simpl; auto;
    try (apply wf_frame; auto; fail).
  unfold_dialog. simpl. destruct reply; apply wf_frame; auto.
Qed.

Lemma wf_set_start_date_for_csv lo hi s :
  wf s → is_Some (parent s) →
  wf (snd (set_start_date_for_csv [lo; hi] s)).
Proof. intros. rewrite set_start_date_for_csv_pair. now apply wf_range_installed. Qed.

Lemma wf_runnable_returns t s : wf s → wf (snd (runnable_returns t s)).
Proof.
  intros [H1 H2 H3]. split; simpl; auto.
  intros u Hu. apply list_elem_of_filter in Hu. apply H1, Hu.
Qed.

(** The date task reads the dialog and leaves it as it is; when it
    returns, it returns a pair of dates. *)
Lemma get_start_date_for_csv_cases binanceClient now s :
  get_start_date_for_csv convert_long_interval binanceClient now s =
    match binanceClient (csvGenerationTicker (ui s))
            (convert_long_interval (csvGenerationDataInterval (ui s))) with
    | Raise e => (Raise e, s)
    | Ok ts =>
        match PyDatetime.utcfromtimestamp (ts / 1000),
              PyDatetime.utcfromtimestamp now with
        | Some a, Some b => (Ok [QDate_of a; QDate_of b], s)
        | _, _ => (Raise (ValueError "year is out of range"), s)
        end
    end.
Proof.
  unfold_dialog. simpl.
  destruct (binanceClient _ _) as [ts | e]; [| reflexivity].
  destruct (PyDatetime.utcfromtimestamp (ts / 1000)); [| reflexivity].
  destruct (PyDatetime.utcfromtimestamp now); reflexivity.
Qed.

Lemma pooled_inv P s t :
  pooled P s t = true →
  t ∈ threadPool s ∧ ∃ r, heap (world s) !! t = Some r ∧ P r = true.
Proof.
  unfold pooled, has_kind. rewrite andb_true_iff, bool_decide_eq_true.
  intros [Ht Hk]. split; [assumption |].
  destruct (heap (world s) !! t) as [r |]; [eauto | discriminate].
Qed.

Lemma emit_lookup s t r sig p reply :
  heap (world s) !! t = Some r →
  emit t sig p reply s = call_all (slots_of sig (connections r)) p reply s.
Proof. intros Hr. unfold emit, bind, get. simpl. now rewrite Hr. Qed.

Lemma worker_connected s t r :
  wf s → heap (world s) !! t = Some r → is_worker r = true →
  connections r = worker_connections.
Proof.
  intros Hwf Hr Hk. destruct (wf_heap _ Hwf _ _ Hr) as (_ & _ & ->).
  unfold is_worker in Hk. now destruct (is_download r).
Qed.

Lemma download_connected s t r :
  wf s → heap (world s) !! t = Some r → is_download r = true →
  connections r = download_connections.
Proof.
  intros Hwf Hr Hk. destruct (wf_heap _ Hwf _ _ Hr) as (_ & _ & ->).
  now rewrite Hk.
Qed.

(** What a worker's run does to a reachable dialog: on success the range
    is installed, on failure the text of the exception is reported; either
    way the worker leaves the pool. *)
Lemma Worker_run_ok s t binanceClient now lo hi :
  wf s → pooled is_worker s t = true →
  get_start_date_for_csv convert_long_interval binanceClient now s
  = (Ok [lo; hi], s) →
  Worker_run convert_long_interval t binanceClient now s
  = (Ok tt, with_threadPool (filter (λ u, u ≠ t)) (range_installed lo hi s)).
Proof.
  intros Hwf Hpool Hget. apply pooled_inv in Hpool as (_ & r & Hr & Hk).
  unfold Worker_run. rewrite Hget. unfold bind.
  rewrite (emit_lookup _ _ _ _ _ _ Hr), (worker_connected _ _ _ Hwf Hr Hk).
  reflexivity.
Qed.

Lemma Worker_run_raise s t binanceClient now e :
  wf s → pooled is_worker s t = true →
  get_start_date_for_csv convert_long_interval binanceClient now s
  = (Raise e, s) →
  Worker_run convert_long_interval t binanceClient now s
  = (Ok tt,
     with_threadPool (filter (λ u, u ≠ t))
       (with_ui (λ u, generateCSVButton_setEnabled false
                        (csvGenerationStatus_setText (str e) u)) s)).
Proof.
  intros Hwf Hpool Hget. apply pooled_inv in Hpool as (_ & r & Hr & Hk).
  unfold Worker_run. rewrite Hget. unfold bind.
  rewrite (emit_lookup _ _ _ _ _ _ Hr), (worker_connected _ _ _ Hwf Hr Hk).
  reflexivity.
Qed.

(** The two outcomes of the date task. *)
Lemma get_start_date_for_csv_outcome binanceClient now s :
  (∃ lo hi, get_start_date_for_csv convert_long_interval binanceClient now s
            = (Ok [lo; hi], s))
  ∨ (∃ e, get_start_date_for_csv convert_long_interval binanceClient now s
          = (Raise e, s)).
Proof.
  rewrite get_start_date_for_csv_cases.
  destruct (binanceClient _ _) as [ts | e]; [| eauto].
  destruct (PyDatetime.utcfromtimestamp (ts / 1000)),
    (PyDatetime.utcfromtimestamp now); eauto.
Qed.

Lemma wf_call_all sls p reply s :
  Forall (λ sl, sl ≠ set_start_date_for_csv_slot) sls →
  wf s → wf (snd (call_all sls p reply s)).
Proof.
  intros Hs. revert s. induction Hs as [| sl sls Hsl _ IH]; intros s Hwf.
  - exact Hwf.
  - simpl. unfold bind.
    pose proof (wf_call_slot sl p reply s Hsl Hwf) as H1.
    destruct (call_slot sl p reply s) as [[[] | e] s1]; simpl in *; auto.
Qed.

Lemma download_slots sig :
  Forall (λ sl, sl ≠ set_start_date_for_csv_slot)
         (slots_of sig download_connections).
Proof. destruct sig; repeat constructor; discriminate. Qed.

Lemma wf_handle ev s :
  enabled ev s = true → wf s →
  wf (snd (handle ROOT_DIR convert_long_interval ev s)).
Proof.
  intros Hen Hwf. destruct ev as [e reply | text | d | t | t b now
                                   | t sig p reply | t]; simpl in *.
  - now apply wf_load_slots.
  - revert Hwf. apply wf_frame; auto.
  - revert Hwf. apply wf_frame; auto.
  - apply pooled_inv in Hen as (_ & r & Hr & Hk).
    unfold Worker_started. rewrite (emit_lookup _ _ _ _ _ _ Hr).
    rewrite (worker_connected _ _ _ Hwf Hr Hk). simpl.
    revert Hwf. apply wf_frame; auto.
  - destruct (get_start_date_for_csv_outcome b now s)
      as [(lo & hi & Hget) | (e & Hget)].
    + rewrite (Worker_run_ok _ _ _ _ _ _ Hwf Hen Hget).
      apply pooled_inv in Hen as (_ & r & Hr & Hk).
      destruct (wf_heap _ Hwf _ _ Hr) as (_ & Hp & _).
      apply (wf_runnable_returns t (range_installed _ _ s)).
      now apply wf_range_installed.
    + rewrite (Worker_run_raise _ _ _ _ _ Hwf Hen Hget).
      apply (wf_runnable_returns t). revert Hwf. apply wf_frame; auto.
  - apply andb_true_iff in Hen as [Hen _].
    apply pooled_inv in Hen as (_ & r & Hr & Hk).
    rewrite (emit_lookup _ _ _ _ _ _ Hr).
    rewrite (download_connected _ _ _ Hwf Hr Hk).
    apply wf_call_all; [apply download_slots | assumption].
  - now apply wf_runnable_returns.
Qed.

Lemma wf_run evs s s' :
  wf s → run ROOT_DIR convert_long_interval evs s = Some s' → wf s'.
Proof.
  revert s. induction evs as [| ev evs IH]; simpl; intros s Hwf Hrun.
  - now inversion Hrun; subst.
  - destruct (enabled ev s) eqn:Hen; [| discriminate].
    eapply IH; [| exact Hrun]. now apply wf_handle.
Qed.

Lemma reachable_wf s : reachable ROOT_DIR convert_long_interval s → wf s.
Proof.
  intros (parent & loaded & fs & evs & Hrun).
  eapply wf_run; [apply wf_init | exact Hrun].
Qed.

(** ** Callbacks of the download thread *)

Lemma handle_download_emits s t sig p reply :
  wf s → enabled (DownloadEmits t sig p reply) s = true →
  handle ROOT_DIR convert_long_interval (DownloadEmits t sig p reply) s
  = call_all (slots_of sig download_connections) p reply s.
Proof.
  intros Hwf Hen. simpl in *. apply andb_true_iff in Hen as [Hen _].
  apply pooled_inv in Hen as (_ & r & Hr & Hk).
  now rewrite (emit_lookup _ _ _ _ _ _ Hr), (download_connected _ _ _ Hwf Hr Hk).
Qed.

(** C7. In a reachable state, a progress signal (progress, message) of a
    download thread in the pool sets the progress bar to progress and the
    status label to message; its completion signal with the saved path
    makes the status label report the path, sets the bar to 100 and
    enables the generate button. *)
Theorem download_progress_reflected s t :
  reachable ROOT_DIR convert_long_interval s →
  (∀ n message reply,
     enabled (DownloadEmits t progress (PIntStr n message) reply) s = true →
     let s' := snd (handle ROOT_DIR convert_long_interval
                      (DownloadEmits t progress (PIntStr n message) reply) s) in
     csvGenerationProgressBar (ui s') = n
     ∧ csvGenerationStatus (ui s') = message)
  ∧ (∀ savedPath reply,
       enabled (DownloadEmits t csv_finished (PStr savedPath) reply) s = true →
       let s' := snd (handle ROOT_DIR convert_long_interval
                        (DownloadEmits t csv_finished (PStr savedPath) reply) s) in
       csvGenerationStatus (ui s')
       = "Successfully saved CSV data to " +:+ savedPath +:+ "."
       ∧ csvGenerationProgressBar (ui s') = 100
       ∧ generateCSVButton (ui s') = true).
Proof.
  intros Hwf%reachable_wf. split.
  - intros n message reply Hen s'. subst s'.
    rewrite (handle_download_emits _ _ _ _ _ Hwf Hen). simpl. auto.
  - intros savedPath reply Hen s'. subst s'.
    rewrite (handle_download_emits _ _ _ _ _ Hwf Hen).
    destruct reply; simpl; auto.
Qed.


(** C3, amended. The error callback of the date-lookup worker sets the
    status label to the message it receives, as it is; the error callback
    of the download thread sets it to the message behind the fixed prefix
    "Download failed because of error: ".  In a reachable state this is
    what the label shows when a worker in the pool fails with an
    exception, and when a download thread in the pool reports an error. *)
Theorem worker_errors_reported s t :
  reachable ROOT_DIR convert_long_interval s →
  (∀ message,
     csvGenerationStatus
       (ui (snd (error_handle_for_csv_start_date message s))) = message
     ∧ csvGenerationStatus
         (ui (snd (handle_csv_generation_error message s)))
       = "Download failed because of error: " +:+ message)
  ∧ (∀ binanceClient now e,
       enabled (WorkerRuns t binanceClient now) s = true →
       binanceClient (csvGenerationTicker (ui s))
         (convert_long_interval (csvGenerationDataInterval (ui s))) = Raise e →
       csvGenerationStatus
         (ui (snd (handle ROOT_DIR convert_long_interval
                     (WorkerRuns t binanceClient now) s))) = str e)
  ∧ (∀ message reply,
       enabled (DownloadEmits t error (PStr message) reply) s = true →
       csvGenerationStatus
         (ui (snd (handle ROOT_DIR convert_long_interval
                     (DownloadEmits t error (PStr message) reply) s)))
       = "Download failed because of error: " +:+ message).
Proof.
  intros Hwf%reachable_wf. split; [| split].
  - intros message. split; reflexivity.
  - intros b now e Hen Hb. simpl handle.
    rewrite (Worker_run_raise _ _ _ _ e Hwf Hen); [reflexivity |].
    rewrite get_start_date_for_csv_cases, Hb. reflexivity.
  - intros message reply Hen.
    rewrite (handle_download_emits _ _ _ _ _ Hwf Hen). reflexivity.
Qed.

End Csv.

(** ** The calendar date of an ordinal *)

Section Calendar.

Import PyDatetime.

Lemma all_from_spec f count : ∀ lo k,
  all_from count lo f = true → lo <= k < lo + Z.of_nat count → f k = true.
Proof.
  induction count as [| count IH]; intros lo k Hall Hk.
  - lia.
  - cbn [all_from] in Hall. apply andb_true_iff in Hall as [Hhere Hrest].
    destruct (Z.eq_dec k lo) as [-> | Hne]; [exact Hhere |].
    apply (IH (lo + 1)); [exact Hrest | lia].
Qed.

(** One 400-year cycle, checked day by day and date by date. *)
Lemma cycle_ordinals : all_from (Z.to_nat DI400Y) 1 ordinal_agrees = true.
Proof. vm_compute. reflexivity. Qed.

Lemma cycle_dates :
  all_from 400 1 (λ y, all_from 12 1 (λ m, all_from 31 1 (date_agrees y m)))
  = true.
Proof. vm_compute. reflexivity. Qed.

Lemma ord2ymd_shift n q :
  ord2ymd (n + DI400Y * q)
  = mkdate (year (ord2ymd n) + 400 * q) (month (ord2ymd n)) (day (ord2ymd n)).
Proof.
  unfold ord2ymd.
  replace (n + DI400Y * q - 1) with (n - 1 + q * DI400Y) by lia.
  rewrite Z.div_add, Z.mod_add by (unfold DI400Y; lia).
  cbv zeta.
  repeat match goal with
         | |- context [if ?c then _ else _] => destruct c
         end; cbn [year month day]; f_equal; lia.
Qed.

Lemma is_leap_shift y q : is_leap (y + 400 * q) = is_leap y.
Proof.
  unfold is_leap.
  replace ((y + 400 * q) mod 4) with (y mod 4)
    by (Z.div_mod_to_equations; lia).
  replace ((y + 400 * q) mod 100) with (y mod 100)
    by (Z.div_mod_to_equations; lia).
  replace ((y + 400 * q) mod 400) with (y mod 400)
    by (Z.div_mod_to_equations; lia).
  reflexivity.
Qed.

Lemma ymd2ord_shift y m d q :
  ymd2ord (mkdate (y + 400 * q) m d) = ymd2ord (mkdate y m d) + DI400Y * q.
Proof.
  unfold ymd2ord, days_before_month, days_before_year, DI400Y.
  cbn [year month day]. rewrite is_leap_shift.
  Z.div_mod_to_equations. lia.
Qed.

Lemma valid_date_shift y m d q :
  valid_date (mkdate (y + 400 * q) m d) = valid_date (mkdate y m d).
Proof.
  unfold valid_date, days_in_month. cbn [year month day].
  now rewrite is_leap_shift.
Qed.

(** [ord2ymd n] is a date of the calendar, and it is the date whose
    ordinal is [n]. *)
Theorem ymd2ord_ord2ymd n :
  ymd2ord (ord2ymd n) = n ∧ valid_date (ord2ymd n) = true.
Proof.
  pose proof (Z.div_mod (n - 1) DI400Y ltac:(unfold DI400Y; lia)) as Hn.
  pose proof (Z.mod_pos_bound (n - 1) DI400Y ltac:(unfold DI400Y; lia)) as Hr.
  set (q := (n - 1) / DI400Y) in *. set (r := (n - 1) mod DI400Y) in *.
  replace n with (r + 1 + DI400Y * q) by lia.
  rewrite ord2ymd_shift.
  pose proof (all_from_spec _ _ 1 (r + 1) cycle_ordinals) as Hagree.
  rewrite Z2Nat.id in Hagree by (unfold DI400Y; lia).
  specialize (Hagree ltac:(lia)). unfold ordinal_agrees in Hagree.
  apply andb_true_iff in Hagree as [Hord Hvalid]. apply Z.eqb_eq in Hord.
  destruct (ord2ymd (r + 1)) as [y m d]. cbn [year month day].
  rewrite ymd2ord_shift, valid_date_shift, Hord. auto.
Qed.

Lemma date_eqb_eq a b : date_eqb a b = true → a = b.
Proof.
  destruct a, b. unfold date_eqb. cbn [year month day].
  rewrite !andb_true_iff, !Z.eqb_eq. intros [[-> ->] ->]. reflexivity.
Qed.

(** A valid date is the date of its ordinal, so no two valid dates share
    an ordinal. *)
Theorem ord2ymd_ymd2ord d : valid_date d = true → ord2ymd (ymd2ord d) = d.
Proof.
  destruct d as [y m a]. intros Hvalid.
  pose proof (Z.div_mod (y - 1) 400 ltac:(lia)) as Hy.
  pose proof (Z.mod_pos_bound (y - 1) 400 ltac:(lia)) as Hr.
  set (q := (y - 1) / 400) in *. set (r := (y - 1) mod 400) in *.
  replace y with (r + 1 + 400 * q) in * by lia.
  rewrite valid_date_shift in Hvalid. rewrite ymd2ord_shift, ord2ymd_shift.
  unfold valid_date in Hvalid. cbn [year month day] in Hvalid.
  rewrite !andb_true_iff, !Z.leb_le in Hvalid.
  destruct Hvalid as [[[Hm1 Hm12] Ha1] Hadim].
  assert (Hdim : days_in_month (r + 1) m <= 31).
  { unfold days_in_month.
    assert (Hcases : m = 1 ∨ m = 2 ∨ m = 3 ∨ m = 4 ∨ m = 5 ∨ m = 6 ∨ m = 7
                     ∨ m = 8 ∨ m = 9 ∨ m = 10 ∨ m = 11 ∨ m = 12) by lia.
    destruct Hcases as [H|[H|[H|[H|[H|[H|[H|[H|[H|[H|[H|H]]]]]]]]]]];
      rewrite H; destruct (is_leap _); vm_compute; discriminate. }
  pose proof (all_from_spec _ _ 1 (r + 1) cycle_dates ltac:(lia)) as Hyear.
  pose proof (all_from_spec _ _ 1 m Hyear ltac:(lia)) as Hmonth.
  pose proof (all_from_spec _ _ 1 a Hmonth ltac:(lia)) as Hday.
  unfold date_agrees in Hday.
  apply Z.leb_le in Hadim. rewrite Hadim in Hday. cbn [implb] in Hday.
  apply date_eqb_eq in Hday. rewrite Hday. cbn [year month day].
  reflexivity.
Qed.

Corollary date_of_ordinal_unique n d :
  valid_date d = true → ymd2ord d = n → d = ord2ymd n.
Proof. intros Hvalid <-. symmetry. now apply ord2ymd_ymd2ord. Qed.

(** The two ordinals the module names. *)
Example named_ordinals :
  ymd2ord (mkdate 1970 1 1) = EPOCH_ORDINAL
  ∧ ymd2ord (mkdate 9999 12 31) = MAX_ORDINAL
  ∧ ymd2ord (mkdate 1 1 1) = 1.
Proof. repeat split. Qed.

End Calendar.

(** ** The workflow over reachable states *)

Section Workflow.

Variable ROOT_DIR : string.
Variable convert_long_interval : string → string.

Lemma purge_references directory answer s :
  let s' := snd (purge ROOT_DIR directory answer s) in
  currentDateList s' = currentDateList s
  ∧ setDateThread s' = setDateThread s
  ∧ csvThread s' = csvThread s
  ∧ threadPool s' = threadPool s
  ∧ heap (world s') = heap (world s).
Proof.
  destruct (OS.path_exists (filesystem (world s))
              (OS.path_join ROOT_DIR directory)) eqn:Hex.
  - destruct (decide (answer = Yes)) as [-> | Hans].
    + rewrite (purge_confirmed _ _ _ Hex).
      destruct (String.eqb directory "Logs"); [| simpl; auto 10].
      unfold renew_logger, bind, get_logger, set_parent_logger. simpl.
      destruct (parent s); simpl; auto 10.
    + rewrite (purge_declined _ _ _ _ Hans Hex). simpl. auto 10.
  - rewrite (purge_missing _ _ _ _ Hex). simpl. auto 10.
Qed.

Lemma stop_csv_generation_references s :
  let s' := snd (stop_csv_generation s) in
  currentDateList s' = currentDateList s
  ∧ setDateThread s' = setDateThread s
  ∧ csvThread s' = csvThread s
  ∧ threadPool s' = threadPool s
  ∧ heap (world s') = heap (world s).
Proof.
  unfold stop_csv_generation, bind, get, modify, ret. simpl.
  destruct (csvThread s) eqn:Ht; simpl; auto 10.
Qed.

(** What a widget signal does to the dialog's three attributes. *)
Lemma load_slots_references e reply s :
  wf s →
  let s' := snd (load_slots ROOT_DIR convert_long_interval e reply s) in
  currentDateList s' = currentDateList s
  ∧ (setDateThread s' = setDateThread s
     ∨ e = csvGenerationTicker_editingFinished
       ∧ setDateThread s' = Some (next_ref (world s)))
  ∧ (csvThread s' = csvThread s
     ∨ e = generateCSVButton_clicked
       ∧ csvThread s' = Some (next_ref (world s))).
Proof.
  intros Hwf.
  destruct e; cbn [load_slots];
    try match goal with
        | |- context [purge ROOT_DIR ?d reply s] =>
            destruct (purge_references d reply s) as (? & ? & ? & _); auto
        end.
  - destruct (currentDateList s) as [[| first rest] |] eqn:Hl.
    + destruct (wf_dates _ Hwf _ Hl) as [_ Hlen]. discriminate Hlen.
    + destruct (wf_dates _ Hwf _ Hl) as [[p Hp] _].
      rewrite (initiate_csv_generation_ok _ _ _ _ _ Hp Hl). simpl. auto 10.
    + rewrite (initiate_csv_generation_no_dates _ _ Hl). simpl. auto 10.
  - destruct (stop_csv_generation_references s) as (? & ? & ? & _). auto.
  - destruct (parent s) as [p |] eqn:Hp.
    + rewrite (start_date_thread_ok _ _ Hp). simpl. auto 10.
    + rewrite (start_date_thread_orphan _ Hp). simpl. auto 10.
Qed.

(** What a signal of a download thread does to them. *)
Lemma download_signal_references sig p reply s :
  let s' := snd (call_all (slots_of sig download_connections) p reply s) in
  currentDateList s' = currentDateList s
  ∧ setDateThread s' = setDateThread s
  ∧ (csvThread s' = csvThread s
     ∨ sig = restore ∧ p = PNone ∧ csvThread s' = None).
Proof.
  destruct sig, p; simpl; auto; destruct reply; simpl; auto 10.
Qed.

(** The attributes after any event that can occur: the stored date list
    changes only when a worker has run, [setDateThread] only when the
    ticker's editing finishes, [csvThread] only on a click on the generate
    button and on a download thread's [restore]. *)
Lemma handle_references ev s :
  wf s → enabled ev s = true →
  let s' := snd (handle ROOT_DIR convert_long_interval ev s) in
  (currentDateList s' = currentDateList s
   ∨ ∃ t b now, ev = WorkerRuns t b now)
  ∧ (setDateThread s' = setDateThread s
     ∨ (∃ reply, ev = Ui csvGenerationTicker_editingFinished reply)
       ∧ setDateThread s' = Some (next_ref (world s)))
  ∧ (csvThread s' = csvThread s
     ∨ (∃ reply, ev = Ui generateCSVButton_clicked reply)
       ∧ csvThread s' = Some (next_ref (world s))
     ∨ (∃ t reply, ev = DownloadEmits t restore PNone reply)
       ∧ csvThread s' = None).
Proof.
  intros Hwf Hen.
  destruct ev as [e reply | text | d | t | t b now | t sig p reply | t].
  - destruct (load_slots_references e reply s Hwf) as (H1 & H2 & H3).
    cbn [handle]. split; [auto |]. split.
    + destruct H2 as [H2 | [-> H2]]; eauto.
    + destruct H3 as [H3 | [-> H3]]; eauto.
  - simpl. auto 10.
  - simpl. auto 10.
  - cbn [handle enabled] in *.
    apply pooled_inv in Hen as (_ & r & Hr & Hk).
    unfold Worker_started. rewrite (emit_lookup _ _ _ _ _ _ Hr).
    rewrite (worker_connected _ _ _ Hwf Hr Hk). simpl. auto 10.
  - cbn [handle enabled] in *. cbv zeta. split; [right; eauto |].
    destruct (get_start_date_for_csv_outcome convert_long_interval b now s)
      as [(lo & hi & Hget) | (e & Hget)].
    + rewrite (Worker_run_ok _ _ _ _ _ _ _ Hwf Hen Hget). simpl. auto 10.
    + rewrite (Worker_run_raise _ _ _ _ _ _ Hwf Hen Hget). simpl. auto 10.
  - cbv zeta. rewrite (handle_download_emits _ _ _ _ _ _ _ Hwf Hen).
    destruct (download_signal_references sig p reply s) as (H1 & H2 & H3).
    split; [auto |]. split; [auto |].
    destruct H3 as [H3 | (-> & -> & H3)]; eauto 10.
  - simpl. auto 10.
Qed.


(** The stored date list is absent until a worker has run. *)
Lemma no_lookup_no_dates evs : ∀ s s',
  wf s → currentDateList s = None →
  Forall (λ ev, ∀ t b now, ev ≠ WorkerRuns t b now) evs →
  run ROOT_DIR convert_long_interval evs s = Some s' →
  currentDateList s' = None.
Proof.
  induction evs as [| ev evs IH]; intros s s' Hwf Hnone Hevs Hrun.
  - simpl in Hrun. congruence.
  - simpl in Hrun. destruct (enabled ev s) eqn:Hen; [| discriminate].
    inversion Hevs as [| ? ? Hev Hrest]; subst.
    apply (IH (snd (handle ROOT_DIR convert_long_interval ev s))); auto using wf_handle.
    destruct (handle_references ev s Hwf Hen) as ([-> | (t & b & now & ->)] & _).
    + exact Hnone.
    + now destruct (Hev t b now).
Qed.

(** C10. In a reachable state with a stored date list, the list has a first
    element and [initiate_csv_generation] constructs, stores in [csvThread]
    and starts a download thread whose start date is None exactly when the
    calendar's selected date is that first element, and the selected date
    otherwise. With no stored date list, which is the case as long as no
    date lookup has run, it raises on the subscript and changes nothing. *)
Theorem start_date_handed_to_download s :
  reachable ROOT_DIR convert_long_interval s →
  (∀ l, currentDateList s = Some l →
     ∃ first p,
       head l = Some first ∧ parent s = Some p
       ∧ let r := initiate_csv_generation convert_long_interval s in
         let selected := selectedDate (startDateCalendar (ui s)) in
         let startDate :=
           if decide (selected = first) then None
           else Some (toPyDate selected) in
         fst r = Ok tt
         ∧ csvThread (snd r) = Some (next_ref (world s))
         ∧ next_ref (world s) ∈ threadPool (snd r)
         ∧ heap (world (snd r)) !! next_ref (world s)
           = Some (mkRunnable
                     (DownloadThread
                        (convert_long_interval
                           (csvGenerationDataInterval (ui s)))
                        (csvGenerationTicker (ui s))
                        (descendingDateRadio (ui s)) (armyDateRadio (ui s))
                        startDate (logger p))
                     download_connections))
  ∧ (currentDateList s = None →
     initiate_csv_generation convert_long_interval s
     = (Raise (TypeError "'NoneType' object is not subscriptable"), s))
  ∧ (∀ parent loaded fs evs,
       Forall (λ ev, ∀ t b now, ev ≠ WorkerRuns t b now) evs →
       run ROOT_DIR convert_long_interval evs (init parent loaded fs) = Some s →
       currentDateList s = None).
Proof.
  intros Hwf%reachable_wf. split; [| split].
  - intros l Hl. destruct (wf_dates _ Hwf _ Hl) as [[p Hp] Hlen].
    destruct l as [| first rest]; [discriminate Hlen |].
    exists first, p. split; [reflexivity |]. split; [exact Hp |].
    rewrite (initiate_csv_generation_ok _ _ _ _ _ Hp Hl). cbv zeta.
    split; [reflexivity |]. split; [reflexivity |]. split.
    + cbn [snd download_started threadPool]. set_solver.
    + cbn [snd download_started world heap]. rewrite lookup_insert_eq.
      unfold download_thread, chosen_start_date.
      destruct (decide (selectedDate (startDateCalendar (ui s)) = first))
        as [Heq | Hne].
      * apply date_eq_QDate_spec in Heq. now rewrite Heq.
      * destruct (date_eq_QDate _ first) eqn:Hq; [| reflexivity].
        apply date_eq_QDate_spec in Hq. contradiction.
  - apply initiate_csv_generation_no_dates.
  - intros parent loaded fs evs Hevs Hrun.
    eapply no_lookup_no_dates; [apply wf_init | reflexivity | exact Hevs
                               | exact Hrun].
Qed.

(** C6. In a reachable state, when a date-lookup worker in the pool runs
    and the market-data client answers the millisecond timestamp [ts] for
    the ticker and interval of the dialog, the task returns the pair
    [start; today]: [start] is the one calendar date whose day contains
    Unix time [ts / 1000] in UTC and [today] the one that contains the
    current time.  [set_start_date_for_csv], which the worker's result is
    delivered to, makes the pair the stored date list and the calendar's
    range, with [start] selected. *)
Theorem date_lookup_installs_range s t binanceClient now ts :
  reachable ROOT_DIR convert_long_interval s →
  enabled (WorkerRuns t binanceClient now) s = true →
  binanceClient (csvGenerationTicker (ui s))
    (convert_long_interval (csvGenerationDataInterval (ui s))) = Ok ts →
  PyDatetime.in_range (ts / 1000) = true →
  PyDatetime.in_range now = true →
  let start := PyDatetime.ord2ymd (PyDatetime.utc_ordinal (ts / 1000)) in
  let today := PyDatetime.ord2ymd (PyDatetime.utc_ordinal now) in
  get_start_date_for_csv convert_long_interval binanceClient now s
  = (Ok [QDate_of start; QDate_of today], s)
  ∧ (PyDatetime.valid_date start = true
     ∧ PyDatetime.ymd2ord start = ts / 1000 / 86400 + PyDatetime.EPOCH_ORDINAL
     ∧ ∀ d, PyDatetime.valid_date d = true →
            PyDatetime.ymd2ord d = PyDatetime.ymd2ord start → d = start)
  ∧ (PyDatetime.valid_date today = true
     ∧ PyDatetime.ymd2ord today = now / 86400 + PyDatetime.EPOCH_ORDINAL)
  ∧ (let s' := snd (set_start_date_for_csv
                      [QDate_of start; QDate_of today] s) in
     startDateCalendar (ui s')
     = mkCalendar (QDate_of start) (QDate_of today) (QDate_of start)
     ∧ currentDateList s' = Some [QDate_of start; QDate_of today])
  ∧ (let s' := snd (handle ROOT_DIR convert_long_interval
                      (WorkerRuns t binanceClient now) s) in
     startDateCalendar (ui s')
     = mkCalendar (QDate_of start) (QDate_of today) (QDate_of start)
     ∧ currentDateList s' = Some [QDate_of start; QDate_of today]).
Proof.
  intros Hwf%reachable_wf Hen Hb Hts Hnow start today.
  assert (Hget : get_start_date_for_csv convert_long_interval
                   binanceClient now s
                 = (Ok [QDate_of start; QDate_of today], s)).
  { rewrite get_start_date_for_csv_cases, Hb.
    unfold PyDatetime.utcfromtimestamp. now rewrite Hts, Hnow. }
  split; [exact Hget |].
  destruct (ymd2ord_ord2ymd (PyDatetime.utc_ordinal (ts / 1000))) as [H1 H2].
  destruct (ymd2ord_ord2ymd (PyDatetime.utc_ordinal now)) as [H3 H4].
  split.
  { split; [exact H2 |]. split; [exact H1 |]. intros d Hd Hord.
    apply (date_of_ordinal_unique (PyDatetime.utc_ordinal (ts / 1000)) d Hd).
    rewrite Hord. exact H1. }
  split; [now split |].
  split; [split; reflexivity |].
  cbn [handle]. rewrite (Worker_run_ok _ _ _ _ _ _ _ Hwf Hen Hget).
  split; reflexivity.
Qed.




End Workflow.

(** * The properties on the sample dialog *)

Lemma after_reachable evs :
  Sample.runs evs = true →
  reachable Sample.ROOT_DIR Sample.convert_long_interval (Sample.after evs).
Proof.
  unfold Sample.runs, Sample.after. intros Hruns.
  exists (Some Sample.main_window), Sample.loaded, Sample.files, evs.
  fold Sample.s0.
  destruct (run Sample.ROOT_DIR Sample.convert_long_interval evs Sample.s0);
    [reflexivity | discriminate].
Qed.

(** The civil date of the earliest kline and of the lookup. *)
Example earliest_kline_date :
  PyDatetime.utcfromtimestamp (1502942400000 / 1000)
  = Some (PyDatetime.mkdate 2017 8 17)
  ∧ PyDatetime.utcfromtimestamp Sample.now = Some (PyDatetime.mkdate 2021 3 1).
Proof. split; reflexivity. Qed.

(** Purging the CSV directory removes it and the file below it, and only
    those. *)
Example purge_csv_files :
  let s' := snd (load_slots Sample.ROOT_DIR Sample.convert_long_interval
                   purgeCSVFilesButton_clicked Yes Sample.s0) in
  infoLabel (ui s') = "Csv files have been successfully deleted."
  ∧ filesystem (world s')
    = {[ "/home/trader/algobot/Logs";
         "/home/trader/algobot/Logs/2021-03-01.log";
         "/home/trader/algobot/Databases";
         "/home/trader/algobot/Backtest Results";
         "/home/trader/algobot/Configuration";
         "/home/trader/algobot/Credentials" ]}.
Proof. split; vm_compute; reflexivity. Qed.



(** C9 on the sample dialog: the logs are purged, then the CSV files. *)
Lemma logs_purge_renews_logger_witness :
  (let r := load_slots Sample.ROOT_DIR Sample.convert_long_interval
              purgeLogsButton_clicked Yes Sample.s0 in
   fst r = Ok tt
   ∧ parent (snd r) = Some (mkMainWindow (mkLogger "algobot" "algobot" 0))
   ∧ loggers_created (world (snd r)) = 1%nat)
  ∧ (let r := load_slots Sample.ROOT_DIR Sample.convert_long_interval
                purgeCSVFilesButton_clicked Yes Sample.s0 in
     fst r = Ok tt ∧ parent (snd r) = parent Sample.s0
     ∧ loggers_created (world (snd r)) = loggers_created (world Sample.s0)).
Proof.
  destruct (logs_purge_renews_logger Sample.ROOT_DIR
              Sample.convert_long_interval Sample.s0 Sample.main_window
              eq_refl) as [Hlogs Hothers].
  split.
  - apply Hlogs. vm_compute. reflexivity.
  - apply (Hothers purgeCSVFilesButton_clicked "CSV" Yes).
    + simpl. auto 10.
    + discriminate.
Defined.

(** C7 on the sample dialog while download thread 1 is in flight. *)
Lemma download_progress_reflected_witness :
  (let s' := snd (handle Sample.ROOT_DIR Sample.convert_long_interval
                    (DownloadEmits 1 progress (PIntStr 40 "Downloaded 40%") No)
                    (Sample.after Sample.downloading)) in
   csvGenerationProgressBar (ui s') = 40
   ∧ csvGenerationStatus (ui s') = "Downloaded 40%")
  ∧ (let s' := snd (handle Sample.ROOT_DIR Sample.convert_long_interval
                      (DownloadEmits 1 csv_finished (PStr "BTCUSDT.csv") Close)
                      (Sample.after Sample.downloading)) in
     csvGenerationStatus (ui s')
     = "Successfully saved CSV data to " +:+ "BTCUSDT.csv" +:+ "."
     ∧ csvGenerationProgressBar (ui s') = 100
     ∧ generateCSVButton (ui s') = true).
Proof.
  destruct (download_progress_reflected Sample.ROOT_DIR
              Sample.convert_long_interval (Sample.after Sample.downloading)
              1%nat (after_reachable Sample.downloading eq_refl))
    as [Hprogress Hfinished].
  split.
  - apply (Hprogress 40 "Downloaded 40%" No). vm_compute. reflexivity.
  - apply (Hfinished "BTCUSDT.csv" Close). vm_compute. reflexivity.
Defined.


(** C3 fails for the download thread: its error message reaches the status
    label behind a prefix, not as it is. *)
Lemma download_error_not_verbatim :
  let s := Sample.after Sample.downloading in
  let ev := DownloadEmits 1 error (PStr "Connection reset") No in
  Sample.runs Sample.downloading = true
  ∧ enabled ev s = true
  ∧ csvGenerationStatus
      (ui (snd (handle Sample.ROOT_DIR Sample.convert_long_interval ev s)))
    = "Download failed because of error: Connection reset"
  ∧ csvGenerationStatus
      (ui (snd (handle Sample.ROOT_DIR Sample.convert_long_interval ev s)))
    ≠ "Connection reset".
Proof.
  cbv zeta. split; [reflexivity |]. split; [reflexivity |].
  split; [reflexivity |]. vm_compute. discriminate.
Qed.

(** C3, amended, on the sample dialog: a failing lookup, a failing
    download. *)
Lemma worker_errors_reported_witness :
  csvGenerationStatus
    (ui (snd (handle Sample.ROOT_DIR Sample.convert_long_interval
                (WorkerRuns 0 Sample.failingClient Sample.now)
                (Sample.after [Sample.editing; WorkerStarts 0]))))
  = "Invalid symbol."
  ∧ csvGenerationStatus
      (ui (snd (handle Sample.ROOT_DIR Sample.convert_long_interval
                  (DownloadEmits 1 error (PStr "Connection reset") No)
                  (Sample.after Sample.downloading))))
    = "Download failed because of error: " +:+ "Connection reset".
Proof.
  split.
  - apply (proj1 (proj2 (worker_errors_reported Sample.ROOT_DIR
                    Sample.convert_long_interval
                    (Sample.after [Sample.editing; WorkerStarts 0]) 0%nat
                    (after_reachable [Sample.editing; WorkerStarts 0] eq_refl)))
             Sample.failingClient Sample.now (Exception "Invalid symbol."));
      vm_compute; reflexivity.
  - apply (proj2 (proj2 (worker_errors_reported Sample.ROOT_DIR
                    Sample.convert_long_interval
                    (Sample.after Sample.downloading) 1%nat
                    (after_reachable Sample.downloading eq_refl)))
             "Connection reset" No).
    vm_compute. reflexivity.
Defined.





(** C6 on the sample dialog: the lookup of BTCUSDT on 2021-03-01. *)
Lemma date_lookup_installs_range_witness :
  let s := Sample.after [Sample.editing; WorkerStarts 0] in
  let start := PyDatetime.ord2ymd (PyDatetime.utc_ordinal (1502942400000 / 1000)) in
  let today := PyDatetime.ord2ymd (PyDatetime.utc_ordinal Sample.now) in
  get_start_date_for_csv Sample.convert_long_interval Sample.binanceClient
    Sample.now s
  = (Ok [QDate_of start; QDate_of today], s)
  ∧ (PyDatetime.valid_date start = true
     ∧ PyDatetime.ymd2ord start
       = 1502942400000 / 1000 / 86400 + PyDatetime.EPOCH_ORDINAL
     ∧ ∀ d, PyDatetime.valid_date d = true →
            PyDatetime.ymd2ord d = PyDatetime.ymd2ord start → d = start)
  ∧ (PyDatetime.valid_date today = true
     ∧ PyDatetime.ymd2ord today = Sample.now / 86400 + PyDatetime.EPOCH_ORDINAL)
  ∧ (let s' := snd (set_start_date_for_csv
                      [QDate_of start; QDate_of today] s) in
     startDateCalendar (ui s')
     = mkCalendar (QDate_of start) (QDate_of today) (QDate_of start)
     ∧ currentDateList s' = Some [QDate_of start; QDate_of today])
  ∧ (let s' := snd (handle Sample.ROOT_DIR Sample.convert_long_interval
                      (WorkerRuns 0 Sample.binanceClient Sample.now) s) in
     startDateCalendar (ui s')
     = mkCalendar (QDate_of start) (QDate_of today) (QDate_of start)
     ∧ currentDateList s' = Some [QDate_of start; QDate_of today]).
Proof.
  apply (date_lookup_installs_range Sample.ROOT_DIR
           Sample.convert_long_interval
           (Sample.after [Sample.editing; WorkerStarts 0]) 0%nat
           Sample.binanceClient Sample.now 1502942400000).
  - apply after_reachable. reflexivity.
  - vm_compute. reflexivity.
  - reflexivity.
  - reflexivity.
  - reflexivity.
Defined.

(** C10 on the sample dialog: after the lookup the selected date is the
    earliest one and the download thread gets no start date; a fresh
    dialog has no date list. *)
Lemma start_date_handed_to_download_witness :
  (∃ first p,
     head [mkQDate 2017 8 17; mkQDate 2021 3 1] = Some first
     ∧ parent (Sample.after Sample.lookup_done) = Some p
     ∧ let s := Sample.after Sample.lookup_done in
       let r := initiate_csv_generation Sample.convert_long_interval s in
       let selected := selectedDate (startDateCalendar (ui s)) in
       let startDate :=
         if decide (selected = first) then None
         else Some (toPyDate selected) in
       fst r = Ok tt
       ∧ csvThread (snd r) = Some (next_ref (world s))
       ∧ next_ref (world s) ∈ threadPool (snd r)
       ∧ heap (world (snd r)) !! next_ref (world s)
         = Some (mkRunnable
                   (DownloadThread
                      (Sample.convert_long_interval
                         (csvGenerationDataInterval (ui s)))
                      (csvGenerationTicker (ui s))
                      (descendingDateRadio (ui s)) (armyDateRadio (ui s))
                      startDate (logger p))
                   download_connections))
  ∧ initiate_csv_generation Sample.convert_long_interval Sample.s0
    = (Raise (TypeError "'NoneType' object is not subscriptable"), Sample.s0).
Proof.
  split.
  - apply (proj1 (start_date_handed_to_download Sample.ROOT_DIR
                    Sample.convert_long_interval
                    (Sample.after Sample.lookup_done)
                    (after_reachable Sample.lookup_done eq_refl))).
    vm_compute. reflexivity.
  - apply (proj1 (proj2 (start_date_handed_to_download Sample.ROOT_DIR
                           Sample.convert_long_interval Sample.s0
                           (after_reachable [] eq_refl)))).
    reflexivity.
Defined.

(** With the lookup done, the download thread of the sample dialog is
    constructed without a start date; after the user picks a later date,
    with that date. *)
Example sample_start_dates :
  chosen_start_date (mkQDate 2017 8 17) (Sample.after Sample.lookup_done)
  = None
  ∧ chosen_start_date (mkQDate 2017 8 17)
      (Sample.after (Sample.lookup_done ++ [UserPicksDate (mkQDate 2020 1 1)])%list)
    = Some (PyDatetime.mkdate 2020 1 1).
Proof. split; vm_compute; reflexivity. Qed.

(** * Further properties of the purge action *)

Section PurgeMore.

Variable ROOT_DIR : string.
Variable convert_long_interval : string → string.

Lemma append_cons x (a b : string) : String x a +:+ b = String x (a +:+ b).
Proof. reflexivity. Qed.

Lemma append_assoc (a b c : string) : (a +:+ b) +:+ c = a +:+ (b +:+ c).
Proof.
  induction a as [| x a IH]; [reflexivity |].
  now rewrite !append_cons, IH.
Qed.

Lemma append_empty (p : string) : p +:+ "" = p.
Proof.
  induction p as [| a p IH]; [reflexivity |]. now rewrite append_cons, IH.
Qed.

Lemma startswith_app_inv p : ∀ q y,
  PyStr.startswith q (p +:+ y) = true →
  ∃ r, q = p +:+ r ∧ PyStr.startswith r y = true.
Proof.
  induction p as [| a p IH]; intros q y H.
  - exists q. auto.
  - rewrite append_cons in H.
    destruct q as [| b q]; cbn [PyStr.startswith] in H; [discriminate |].
    apply andb_true_iff in H as [Hab Hq]. apply Ascii.eqb_eq in Hab as ->.
    destruct (IH q y Hq) as (r & -> & Hr). exists r. auto.
Qed.

Lemma startswith_inv q p :
  PyStr.startswith q p = true → ∃ r, q = p +:+ r.
Proof.
  intros H. rewrite <- (append_empty p) in H.
  destruct (startswith_app_inv p q "" H) as (r & -> & _). eauto.
Qed.

Lemma startswith_app p r x :
  PyStr.startswith (p +:+ r) (p +:+ x) = PyStr.startswith r x.
Proof.
  induction p as [| a p IH]; [reflexivity |].
  rewrite !append_cons. cbn [PyStr.startswith].
  now rewrite Ascii.eqb_refl, IH.
Qed.

Lemma eqb_app p r x : String.eqb (p +:+ r) (p +:+ x) = String.eqb r x.
Proof.
  induction p as [| a p IH]; [reflexivity |].
  rewrite !append_cons. cbn [String.eqb].
  now rewrite Ascii.eqb_refl, IH.
Qed.

Lemma path_join_wired b directory :
  In (b, directory) purge_buttons →
  OS.path_join ROOT_DIR directory = root_prefix ROOT_DIR +:+ directory.
Proof.
  intros H. rewrite (wired_categories_below_root ROOT_DIR b directory H).
  unfold root_prefix.
  destruct (String.eqb ROOT_DIR "" || PyStr.endswith_sep ROOT_DIR);
    [reflexivity | now rewrite append_assoc].
Qed.

(** No wired category name is another one or lies below another one. *)
Lemma wired_names_apart b directory b' directory' r :
  In (b, directory) purge_buttons → In (b', directory') purge_buttons →
  directory ≠ directory' →
  r = directory' ∨ PyStr.startswith r (directory' +:+ "/") = true →
  String.eqb r directory = false
  ∧ PyStr.startswith r (directory +:+ "/") = false.
Proof.
  intros H H' Hne Hr.
  repeat (destruct H as [H | H]; [inversion H; subst; clear H |]);
    try destruct H;
    repeat (destruct H' as [H' | H']; [inversion H'; subst; clear H' |]);
    try destruct H'; try congruence;
    (destruct Hr as [-> | Hr];
     [split; reflexivity
     | apply startswith_inv in Hr as [r' ->]; split; reflexivity]).
Qed.

(** The paths at or below one wired category are not at or below
    another. *)
Lemma wired_paths_apart b directory b' directory' q :
  In (b, directory) purge_buttons → In (b', directory') purge_buttons →
  directory ≠ directory' →
  OS.within (OS.path_join ROOT_DIR directory') q = true →
  OS.within (OS.path_join ROOT_DIR directory) q = false.
Proof.
  intros H H' Hne.
  rewrite (path_join_wired _ _ H), (path_join_wired _ _ H').
  unfold OS.within. rewrite !append_assoc. intros Hq.
  assert (Hr : ∃ r, q = root_prefix ROOT_DIR +:+ r
                    ∧ (r = directory'
                       ∨ PyStr.startswith r (directory' +:+ "/") = true)).
  { apply orb_true_iff in Hq as [Hq | Hq].
    - apply String.eqb_eq in Hq. eauto.
    - apply startswith_app_inv in Hq as (r & -> & Hr). eauto. }
  destruct Hr as (r & -> & Hr).
  rewrite eqb_app, startswith_app.
  destruct (wired_names_apart _ _ _ _ r H H' Hne Hr) as [-> ->]. reflexivity.
Qed.

(** A purge keeps every path that is not at or below the resolved one. *)
Lemma purge_keeps directory answer s q :
  OS.within (OS.path_join ROOT_DIR directory) q = false →
  (q ∈ filesystem (world (snd (purge ROOT_DIR directory answer s)))
   ↔ q ∈ filesystem (world s)).
Proof.
  intros Hq.
  destruct (OS.path_exists (filesystem (world s))
              (OS.path_join ROOT_DIR directory)) eqn:Hex.
  - destruct (decide (answer = Yes)) as [-> | Hans].
    + rewrite (purge_confirmed _ _ _ Hex).
      assert (Hfs : filesystem (world (purged ROOT_DIR directory s))
                    = OS.rmtree (OS.path_join ROOT_DIR directory)
                        (filesystem (world s))) by reflexivity.
      destruct (String.eqb directory "Logs").
      * destruct (renew_logger_frame (purged ROOT_DIR directory s))
          as (_ & -> & _).
        rewrite Hfs, elem_of_rmtree. tauto.
      * simpl snd. rewrite Hfs, elem_of_rmtree. tauto.
    + now rewrite (purge_declined _ _ _ _ Hans Hex).
  - now rewrite (purge_missing _ _ _ _ Hex).
Qed.


(** X1. A purge the user does not confirm (any answer but Yes to the
    confirmation box) deletes nothing: it returns with the confirmation
    box shown and the state otherwise as it was. *)
Theorem purge_not_confirmed_deletes_nothing directory answer s :
  answer ≠ Yes →
  OS.path_exists (filesystem (world s)) (OS.path_join ROOT_DIR directory) = true →
  let r := purge ROOT_DIR directory answer s in
  fst r = Ok tt
  ∧ filesystem (world (snd r)) = filesystem (world s)
  ∧ ui (snd r) = ui s
  ∧ parent (snd r) = parent s
  ∧ shown (world (snd r))
    = (shown (world s) ++ [confirmation ROOT_DIR directory])%list.
Proof.
  intros Hans Hex r. subst r. rewrite (purge_declined _ _ _ _ Hans Hex).
  repeat split.
Qed.

(** X2. A purge of one wired category, confirmed or not, keeps every path
    at or below the directory of another wired category. *)
Theorem purge_spares_other_categories b directory b' directory' answer s q :
  In (b, directory) purge_buttons → In (b', directory') purge_buttons →
  directory ≠ directory' →
  OS.within (OS.path_join ROOT_DIR directory') q = true →
  (q ∈ filesystem
         (world (snd (load_slots ROOT_DIR convert_long_interval b answer s)))
   ↔ q ∈ filesystem (world s)).
Proof.
  intros H H' Hne Hq. rewrite (load_slots_purge _ _ _ _ _ H).
  apply purge_keeps. exact (wired_paths_apart _ _ _ _ q H H' Hne Hq).
Qed.



Lemma purge_frame directory answer s :
  let s' := snd (purge ROOT_DIR directory answer s) in
  csvThread s' = csvThread s
  ∧ setDateThread s' = setDateThread s
  ∧ currentDateList s' = currentDateList s
  ∧ threadPool s' = threadPool s
  ∧ heap (world s') = heap (world s)
  ∧ stop_calls (world s') = stop_calls (world s)
  ∧ opened (world s') = opened (world s)
  ∧ infoLabel_setText (infoLabel (ui s)) (ui s') = ui s.
Proof.
  destruct (OS.path_exists (filesystem (world s))
              (OS.path_join ROOT_DIR directory)) eqn:Hex.
  - destruct (decide (answer = Yes)) as [-> | Hans].
    + rewrite (purge_confirmed _ _ _ Hex).
      destruct (String.eqb directory "Logs").
      * unfold renew_logger, bind, get_logger, set_parent_logger. simpl.
        destruct s as [[] p pool c d l w]. destruct p; simpl; auto 10.
      * destruct s as [[] p pool c d l w]. simpl. auto 10.
    + rewrite (purge_declined _ _ _ _ Hans Hex).
      destruct s as [[] p pool c d l w]. simpl. auto 10.
  - rewrite (purge_missing _ _ _ _ Hex).
    destruct s as [[] p pool c d l w]. simpl. auto 10.
Qed.

(** X5. A purge, of any directory and with any answer, leaves the CSV
    workflow alone: the thread references, the stored date list, the pool,
    the runnables, the recorded stop calls and opened paths are unchanged,
    and of the widgets at most the info label changes. *)
Theorem purge_leaves_workflow directory answer s :
  let s' := snd (purge ROOT_DIR directory answer s) in
  csvThread s' = csvThread s
  ∧ setDateThread s' = setDateThread s
  ∧ currentDateList s' = currentDateList s
  ∧ threadPool s' = threadPool s
  ∧ heap (world s') = heap (world s)
  ∧ stop_calls (world s') = stop_calls (world s)
  ∧ opened (world s') = opened (world s)
  ∧ infoLabel_setText (infoLabel (ui s)) (ui s') = ui s.
Proof. apply purge_frame. Qed.

End PurgeMore.

(** X1 on the sample dialog: the user answers No for the databases. *)
Lemma purge_not_confirmed_deletes_nothing_witness :
  let r := purge Sample.ROOT_DIR "Databases" No Sample.s0 in
  fst r = Ok tt
  ∧ filesystem (world (snd r)) = filesystem (world Sample.s0)
  ∧ ui (snd r) = ui Sample.s0
  ∧ parent (snd r) = parent Sample.s0
  ∧ shown (world (snd r))
    = (shown (world Sample.s0)
       ++ [confirmation Sample.ROOT_DIR "Databases"])%list.
Proof.
  apply (purge_not_confirmed_deletes_nothing Sample.ROOT_DIR "Databases" No
           Sample.s0).
  - discriminate.
  - vm_compute. reflexivity.
Defined.

(** X2 on the sample dialog: purging the CSV files keeps the log file. *)
Lemma purge_spares_other_categories_witness :
  "/home/trader/algobot/Logs/2021-03-01.log"
    ∈ filesystem
        (world (snd (load_slots Sample.ROOT_DIR Sample.convert_long_interval
                       purgeCSVFilesButton_clicked Yes Sample.s0)))
  ↔ "/home/trader/algobot/Logs/2021-03-01.log"
      ∈ filesystem (world Sample.s0).
Proof.
  apply (purge_spares_other_categories Sample.ROOT_DIR
           Sample.convert_long_interval purgeCSVFilesButton_clicked "CSV"
           purgeLogsButton_clicked "Logs" Yes Sample.s0).
  - simpl. auto 10.
  - simpl. auto 10.
  - discriminate.
  - vm_compute. reflexivity.
Defined.



(** * Further properties of the CSV workflow *)

Section WorkflowMore.

Variable ROOT_DIR : string.
Variable convert_long_interval : string → string.

Lemma handle_worker_starts s t :
  wf s → enabled (WorkerStarts t) s = true →
  handle ROOT_DIR convert_long_interval (WorkerStarts t) s
  = (Ok tt, with_ui (generateCSVButton_setEnabled false) s).
Proof.
  intros Hwf Hen. cbn [handle enabled] in *.
  apply pooled_inv in Hen as (_ & r & Hr & Hk).
  unfold Worker_started. rewrite (emit_lookup _ _ _ _ _ _ Hr).
  now rewrite (worker_connected _ _ _ Hwf Hr Hk).
Qed.

Lemma has_kind_inv P s t :
  has_kind P s t = true → ∃ r, heap (world s) !! t = Some r ∧ P r = true.
Proof.
  unfold has_kind. destruct (heap (world s) !! t) as [r |]; [eauto | discriminate].
Qed.

(** The invariant goes along when the runnables, the recorded stop calls,
    the references, the stored list and the range of the calendar stay. *)
Lemma refs_ok_frame s s' :
  heap (world s') = heap (world s) →
  stop_calls (world s') = stop_calls (world s) →
  (csvThread s' = csvThread s ∨ csvThread s' = None) →
  setDateThread s' = setDateThread s →
  currentDateList s' = currentDateList s →
  minimumDate (startDateCalendar (ui s'))
  = minimumDate (startDateCalendar (ui s)) →
  maximumDate (startDateCalendar (ui s'))
  = maximumDate (startDateCalendar (ui s)) →
  refs_ok s → refs_ok s'.
Proof.
  intros Hh Hst Hc Hd Hl Hmin Hmax [H1 H2 H3 H4]. split.
  - intros t Ht. unfold has_kind. rewrite Hh. apply H1.
    destruct Hc as [Hc | Hc]; congruence.
  - intros t Ht. unfold has_kind. rewrite Hh. apply H2. congruence.
  - intros t Ht. unfold has_kind. rewrite Hh. apply H3. congruence.
  - intros l Hl'. rewrite Hmin, Hmax. apply H4. congruence.
Qed.

(** A new runnable at the next reference leaves the old ones what they
    are. *)
Lemma has_kind_allocated P (s s' : Dialog) r t :
  wf s →
  heap (world s') = <[next_ref (world s) := r]> (heap (world s)) →
  has_kind P s t = true → has_kind P s' t = true.
Proof.
  intros Hwf Hh Ht. destruct (has_kind_inv _ _ _ Ht) as (r0 & Hr0 & Hk).
  destruct (wf_heap _ Hwf _ _ Hr0) as (Hlt & _).
  unfold has_kind. rewrite Hh, lookup_insert_ne by lia. now rewrite Hr0.
Qed.

Lemma refs_ok_allocated (s s' : Dialog) r :
  wf s → refs_ok s →
  heap (world s') = <[next_ref (world s) := r]> (heap (world s)) →
  stop_calls (world s') = stop_calls (world s) →
  (csvThread s' = csvThread s
   ∨ csvThread s' = Some (next_ref (world s)) ∧ is_download r = true) →
  (setDateThread s' = setDateThread s
   ∨ setDateThread s' = Some (next_ref (world s)) ∧ is_worker r = true) →
  currentDateList s' = currentDateList s →
  startDateCalendar (ui s') = startDateCalendar (ui s) →
  refs_ok s'.
Proof.
  intros Hwf [H1 H2 H3 H4] Hh Hst Hc Hd Hl Hcal.
  assert (Hnew : ∀ P, has_kind P s' (next_ref (world s)) = P r).
  { intros P. unfold has_kind. now rewrite Hh, lookup_insert_eq. }
  split.
  - intros t Ht. destruct Hc as [Hc | [Hc Hk]].
    + apply (has_kind_allocated _ s s' r t Hwf Hh). apply H1. congruence.
    + rewrite Hc in Ht. injection Ht as <-. now rewrite Hnew.
  - intros t Ht. destruct Hd as [Hd | [Hd Hk]].
    + apply (has_kind_allocated _ s s' r t Hwf Hh). apply H2. congruence.
    + rewrite Hd in Ht. injection Ht as <-. now rewrite Hnew.
  - intros t Ht. apply (has_kind_allocated _ s s' r t Hwf Hh).
    apply H3. congruence.
  - intros l Hl'. rewrite Hcal. apply H4. congruence.
Qed.

Lemma refs_ok_load_slots e reply s :
  wf s → refs_ok s →
  refs_ok (snd (load_slots ROOT_DIR convert_long_interval e reply s)).
Proof.
  intros Hwf Hok.
  destruct e; cbn [load_slots];
    try match goal with
        | |- context [purge ROOT_DIR ?d reply s] =>
            destruct (purge_frame ROOT_DIR d reply s)
              as (Hc & Hd & Hl & _ & Hh & Hst & _ & Hui);
            revert Hok; apply refs_ok_frame; auto;
            rewrite <- Hui; reflexivity
        end.
  - destruct (currentDateList s) as [[| first rest] |] eqn:Hl.
    + destruct (wf_dates _ Hwf _ Hl) as [_ Hlen]. discriminate Hlen.
    + destruct (wf_dates _ Hwf _ Hl) as [[p Hp] _].
      rewrite (initiate_csv_generation_ok _ _ _ _ _ Hp Hl).
      apply (refs_ok_allocated s _
               (download_thread convert_long_interval p first s) Hwf Hok);
        try reflexivity; auto.
    + now rewrite (initiate_csv_generation_no_dates _ _ Hl).
  - unfold stop_csv_generation, bind, get, modify, ret. simpl.
    destruct (csvThread s) as [t |] eqn:Ht; [| exact Hok].
    destruct Hok as [H1 H2 H3 H4]. split; simpl; auto.
    intros u Hu. apply elem_of_app in Hu as [Hu | Hu]; [now apply H3 |].
    apply list_elem_of_singleton in Hu as ->. now apply H1.
  - destruct (parent s) as [p |] eqn:Hp.
    + rewrite (start_date_thread_ok _ _ Hp).
      apply (refs_ok_allocated s _
               (mkRunnable (Worker (logger p)) worker_connections) Hwf Hok);
        try reflexivity; auto.
    + rewrite (start_date_thread_orphan _ Hp).
      revert Hok. apply refs_ok_frame; auto.
Qed.

Lemma refs_ok_download_signal sig p reply s :
  refs_ok s →
  refs_ok (snd (call_all (slots_of sig download_connections) p reply s)).
Proof.
  intros Hok.
  destruct sig, p; simpl; auto;
    try (revert Hok; apply refs_ok_frame; auto; fail);
    destruct reply; simpl; revert Hok; apply refs_ok_frame; auto.
Qed.

Lemma refs_ok_handle ev s :
  enabled ev s = true → wf s → refs_ok s →
  refs_ok (snd (handle ROOT_DIR convert_long_interval ev s)).
Proof.
  intros Hen Hwf Hok.
  destruct ev as [e reply | text | d | t | t b now | t sig p reply | t].
  - now apply refs_ok_load_slots.
  - revert Hok. apply refs_ok_frame; auto.
  - revert Hok. apply refs_ok_frame; auto.
  - rewrite (handle_worker_starts _ _ Hwf Hen).
    revert Hok. apply refs_ok_frame; auto.
  - cbn [handle enabled] in *.
    destruct (get_start_date_for_csv_outcome convert_long_interval b now s)
      as [(lo & hi & Hget) | (e & Hget)].
    + rewrite (Worker_run_ok _ _ _ _ _ _ _ Hwf Hen Hget).
      destruct Hok as [H1 H2 H3 H4]. split; simpl; auto.
      intros l [= <-]. reflexivity.
    + rewrite (Worker_run_raise _ _ _ _ _ _ Hwf Hen Hget).
      revert Hok. apply refs_ok_frame; auto.
  - rewrite (handle_download_emits _ _ _ _ _ _ _ Hwf Hen).
    now apply refs_ok_download_signal.
  - revert Hok. apply refs_ok_frame; auto.
Qed.

Lemma refs_ok_init parent loaded fs : refs_ok (init parent loaded fs).
Proof.
  split; simpl; try discriminate. intros t Ht. inversion Ht.
Qed.

Lemma refs_ok_run evs : ∀ s s',
  wf s → refs_ok s →
  run ROOT_DIR convert_long_interval evs s = Some s' → refs_ok s'.
Proof.
  induction evs as [| ev evs IH]; simpl; intros s s' Hwf Hok Hrun.
  - now inversion Hrun; subst.
  - destruct (enabled ev s) eqn:Hen; [| discriminate].
    eapply IH; [| | exact Hrun].
    + now apply wf_handle.
    + now apply refs_ok_handle.
Qed.

Lemma reachable_refs_ok s :
  reachable ROOT_DIR convert_long_interval s → refs_ok s.
Proof.
  intros (parent & loaded & fs & evs & Hrun).
  eapply refs_ok_run; [apply wf_init | apply refs_ok_init | exact Hrun].
Qed.

(** X6. In every reachable state [csvThread], when set, refers to a
    download thread the dialog constructed, with the six connections of
    [initiate_csv_generation]; [setDateThread], when set, refers to a
    worker with the three connections of [start_date_thread]; and [stop]
    has only ever been called on download threads. *)
Theorem references_have_their_class s :
  reachable ROOT_DIR convert_long_interval s →
  (∀ t, csvThread s = Some t →
     ∃ r, heap (world s) !! t = Some r ∧ is_download r = true
          ∧ connections r = download_connections)
  ∧ (∀ t, setDateThread s = Some t →
       ∃ r, heap (world s) !! t = Some r ∧ is_worker r = true
            ∧ connections r = worker_connections)
  ∧ (∀ t, t ∈ stop_calls (world s) →
       ∃ r, heap (world s) !! t = Some r ∧ is_download r = true).
Proof.
  intros Hreach. pose proof (reachable_wf _ _ _ Hreach) as Hwf.
  destruct (reachable_refs_ok _ Hreach) as [H1 H2 H3 _].
  split; [| split].
  - intros t Ht. destruct (has_kind_inv _ _ _ (H1 t Ht)) as (r & Hr & Hk).
    exists r. eauto using download_connected.
  - intros t Ht. destruct (has_kind_inv _ _ _ (H2 t Ht)) as (r & Hr & Hk).
    exists r. eauto using worker_connected.
  - intros t Ht. destruct (has_kind_inv _ _ _ (H3 t Ht)) as (r & Hr & Hk).
    eauto.
Qed.

(** X7. In every reachable state a stored date list is the pair of the
    calendar's minimum and maximum date: nothing but
    [set_start_date_for_csv] sets the one or the other. *)
Theorem stored_dates_are_calendar_range s l :
  reachable ROOT_DIR convert_long_interval s →
  currentDateList s = Some l →
  l = [minimumDate (startDateCalendar (ui s));
       maximumDate (startDateCalendar (ui s))].
Proof. intros Hreach. apply (range_stored _ (reachable_refs_ok _ Hreach)). Qed.

(** X8. Without a parent window [start_date_thread] raises AttributeError
    when it reads the parent's logger: by then the ticker has lost focus,
    the status says that the search is on and the progress bar is at 0,
    but no worker is constructed, referred to or started. *)
Theorem start_date_thread_without_parent s :
  parent s = None →
  let r := start_date_thread s in
  fst r = Raise (AttributeError "'NoneType' object has no attribute 'logger'")
  ∧ csvGenerationTicker_focus (ui (snd r)) = false
  ∧ csvGenerationStatus (ui (snd r)) = "Searching for earliest start date.."
  ∧ csvGenerationProgressBar (ui (snd r)) = 0
  ∧ setDateThread (snd r) = setDateThread s
  ∧ threadPool (snd r) = threadPool s
  ∧ world (snd r) = world s.
Proof.
  intros Hp r. subst r. rewrite (start_date_thread_orphan _ Hp).
  repeat split.
Qed.


(** X10. In a reachable state, when the task of a date-lookup worker in
    the pool fails, the status label shows the text of the exception, the
    generate button is disabled, so that it cannot be clicked, the stored
    date list and the calendar stay as they were, and the worker has left
    the pool. *)
Theorem failed_lookup_blocks_generate s t binanceClient now e :
  reachable ROOT_DIR convert_long_interval s →
  enabled (WorkerRuns t binanceClient now) s = true →
  fst (get_start_date_for_csv convert_long_interval binanceClient now s)
  = Raise e →
  let s' := snd (handle ROOT_DIR convert_long_interval
                   (WorkerRuns t binanceClient now) s) in
  csvGenerationStatus (ui s') = str e
  ∧ generateCSVButton (ui s') = false
  ∧ (∀ reply, enabled (Ui generateCSVButton_clicked reply) s' = false)
  ∧ currentDateList s' = currentDateList s
  ∧ startDateCalendar (ui s') = startDateCalendar (ui s)
  ∧ t ∉ threadPool s'.
Proof.
  intros Hwf%reachable_wf Hen Hfail s'. subst s'.
  assert (Hget : get_start_date_for_csv convert_long_interval
                   binanceClient now s = (Raise e, s)).
  { destruct (get_start_date_for_csv_outcome convert_long_interval
                binanceClient now s) as [(lo & hi & H) | (e' & H)];
      rewrite H in Hfail; simpl in Hfail; congruence. }
  cbn [handle]. rewrite (Worker_run_raise _ _ _ _ _ _ Hwf Hen Hget).
  cbn [snd]. repeat (split; [reflexivity |]).
  cbn [with_threadPool threadPool with_ui].
  intros Hin. apply list_elem_of_filter in Hin as [Hne _]. now apply Hne.
Qed.

End WorkflowMore.

(** * The order of dates *)

Section DateOrder.

Import PyDatetime.

Lemma days_before_next_year y :
  days_before_year (y + 1) = days_before_year y + 365 + b2z (is_leap y).
Proof.
  unfold days_before_year, is_leap, b2z.
  replace (y + 1 - 1) with y by lia.
  destruct (Z.eqb_spec (y mod 4) 0) as [H4 | H4];
    destruct (Z.eqb_spec (y mod 100) 0) as [H100 | H100];
    destruct (Z.eqb_spec (y mod 400) 0) as [H400 | H400];
    cbn [andb orb negb]; Z.div_mod_to_equations; lia.
Qed.

Lemma days_before_year_mono y y' :
  y <= y' → days_before_year y <= days_before_year y'.
Proof.
  intros Hy. unfold days_before_year. Z.div_mod_to_equations. lia.
Qed.

Lemma months_ordered_spec leap m m' :
  1 <= m → m < m' → m' <= 12 →
  month_start leap m + month_length leap m <= month_start leap m'.
Proof.
  intros H1 H2 H3.
  assert (Hall : months_ordered leap = true)
    by (destruct leap; vm_compute; reflexivity).
  pose proof (all_from_spec _ _ 1 m Hall ltac:(lia)) as Hm.
  pose proof (all_from_spec _ _ 1 m' Hm ltac:(lia)) as Hm'.
  cbv beta in Hm'. apply Z.ltb_lt in H2. rewrite H2 in Hm'.
  apply Z.leb_le. exact Hm'.
Qed.

Lemma months_fit_spec leap m :
  1 <= m <= 12 →
  0 <= month_start leap m
  ∧ month_start leap m + month_length leap m <= 365 + b2z leap.
Proof.
  intros Hm.
  assert (Hall : months_fit leap = true)
    by (destruct leap; vm_compute; reflexivity).
  pose proof (all_from_spec _ _ 1 m Hall ltac:(lia)) as H.
  cbv beta in H. apply andb_true_iff in H as [Ha Hb].
  apply Z.leb_le in Ha, Hb. auto.
Qed.

Lemma valid_date_inv d :
  valid_date d = true →
  1 <= month d <= 12
  ∧ 1 <= day d <= month_length (is_leap (year d)) (month d).
Proof.
  unfold valid_date. rewrite !andb_true_iff, !Z.leb_le. tauto.
Qed.

Lemma ymd2ord_unfold d :
  ymd2ord d
  = days_before_year (year d) + month_start (is_leap (year d)) (month d)
    + day d.
Proof. reflexivity. Qed.

(** An earlier valid date has a smaller ordinal. *)
Lemma date_lt_ordinal a b :
  valid_date a = true → valid_date b = true → date_lt a b →
  ymd2ord a < ymd2ord b.
Proof.
  intros Ha Hb Hlt. rewrite !ymd2ord_unfold.
  apply valid_date_inv in Ha as [Hma Hda]. apply valid_date_inv in Hb as [Hmb Hdb].
  destruct (months_fit_spec (is_leap (year a)) (month a) Hma) as [Ha0 Ha1].
  destruct (months_fit_spec (is_leap (year b)) (month b) Hmb) as [Hb0 Hb1].
  destruct Hlt as [Hy | [Hy [Hm | [Hm Hd]]]].
  - pose proof (days_before_next_year (year a)) as Hnext.
    pose proof (days_before_year_mono (year a + 1) (year b) ltac:(lia)).
    lia.
  - rewrite Hy in *.
    pose proof (months_ordered_spec (is_leap (year b)) (month a) (month b)
                  ltac:(lia) Hm ltac:(lia)).
    lia.
  - rewrite Hy, Hm in *. lia.
Qed.

Lemma QDate_le_false a b :
  QDate_le (QDate_of a) (QDate_of b) = false → date_lt b a.
Proof.
  unfold QDate_le, date_lt. cbn [QDate_of qyear qmonth qday].
  rewrite !orb_false_iff, !andb_false_iff, !orb_false_iff, !andb_false_iff.
  rewrite !Z.ltb_ge, !Z.eqb_neq, !Z.leb_gt. lia.
Qed.

(** The date of a later ordinal is not earlier. *)
Lemma ord2ymd_mono n m :
  n <= m → QDate_le (QDate_of (ord2ymd n)) (QDate_of (ord2ymd m)) = true.
Proof.
  intros Hnm.
  destruct (QDate_le (QDate_of (ord2ymd n)) (QDate_of (ord2ymd m))) eqn:Hle;
    [reflexivity |].
  apply QDate_le_false in Hle.
  destruct (ymd2ord_ord2ymd n) as [Hn Hvn].
  destruct (ymd2ord_ord2ymd m) as [Hm Hvm].
  pose proof (date_lt_ordinal _ _ Hvm Hvn Hle). lia.
Qed.

Lemma QDate_le_refl q : QDate_le q q = true.
Proof.
  unfold QDate_le. rewrite !Z.eqb_refl, Z.leb_refl.
  cbn [andb]. now rewrite !orb_true_r.
Qed.

Lemma QDate_of_inj a b : QDate_of a = QDate_of b → a = b.
Proof. destruct a, b. unfold QDate_of. cbn. now intros [= -> -> ->]. Qed.

Lemma ord2ymd_inj n m : ord2ymd n = ord2ymd m → n = m.
Proof.
  intros H. destruct (ymd2ord_ord2ymd n) as [Hn _].
  destruct (ymd2ord_ord2ymd m) as [Hm _]. congruence.
Qed.

End DateOrder.

(** * The dates a lookup returns *)

Section LookupDates.

Variable convert_long_interval : string → string.

Lemma get_start_date_for_csv_ok_inv binanceClient now s ts lo hi :
  binanceClient (csvGenerationTicker (ui s))
    (convert_long_interval (csvGenerationDataInterval (ui s))) = Ok ts →
  fst (get_start_date_for_csv convert_long_interval binanceClient now s)
  = Ok [lo; hi] →
  lo = QDate_of (PyDatetime.ord2ymd (PyDatetime.utc_ordinal (ts / 1000)))
  ∧ hi = QDate_of (PyDatetime.ord2ymd (PyDatetime.utc_ordinal now)).
Proof.
  intros Hb. rewrite get_start_date_for_csv_cases, Hb.
  unfold PyDatetime.utcfromtimestamp.
  destruct (PyDatetime.in_range (ts / 1000)), (PyDatetime.in_range now);
    simpl; intros H; inversion H; auto.
Qed.

(** X11. The start date a lookup returns is the UTC day of the timestamp
    and nothing more: two timestamps give the same start date exactly if
    they fall on the same day, that is, if they agree after division by
    86,400,000 ms; the end date does not depend on the timestamp. *)
Theorem start_date_is_the_utc_day b1 b2 now s ts1 ts2 lo1 hi1 lo2 hi2 :
  b1 (csvGenerationTicker (ui s))
    (convert_long_interval (csvGenerationDataInterval (ui s))) = Ok ts1 →
  b2 (csvGenerationTicker (ui s))
    (convert_long_interval (csvGenerationDataInterval (ui s))) = Ok ts2 →
  fst (get_start_date_for_csv convert_long_interval b1 now s) = Ok [lo1; hi1] →
  fst (get_start_date_for_csv convert_long_interval b2 now s) = Ok [lo2; hi2] →
  (lo1 = lo2 ↔ ts1 / 86400000 = ts2 / 86400000) ∧ hi1 = hi2.
Proof.
  intros Hb1 Hb2 H1 H2.
  destruct (get_start_date_for_csv_ok_inv _ _ _ _ _ _ Hb1 H1) as [-> ->].
  destruct (get_start_date_for_csv_ok_inv _ _ _ _ _ _ Hb2 H2) as [-> ->].
  split; [| reflexivity].
  unfold PyDatetime.utc_ordinal.
  rewrite !Z.div_div by lia. change (1000 * 86400) with 86400000.
  split.
  - intros H. apply QDate_of_inj, ord2ymd_inj in H. lia.
  - intros ->. reflexivity.
Qed.

(** X12. When the earliest timestamp is not later than the current time,
    the pair a lookup returns is in order, start before or on end, and
    after [set_start_date_for_csv] the selected date, the start, lies
    within the range of the calendar. *)
Theorem lookup_range_is_ordered binanceClient now s ts lo hi :
  binanceClient (csvGenerationTicker (ui s))
    (convert_long_interval (csvGenerationDataInterval (ui s))) = Ok ts →
  ts / 1000 <= now →
  fst (get_start_date_for_csv convert_long_interval binanceClient now s)
  = Ok [lo; hi] →
  QDate_le lo hi = true
  ∧ let c := startDateCalendar (ui (snd (set_start_date_for_csv [lo; hi] s))) in
    QDate_le (minimumDate c) (selectedDate c) = true
    ∧ QDate_le (selectedDate c) (maximumDate c) = true.
Proof.
  intros Hb Hle Hget.
  destruct (get_start_date_for_csv_ok_inv _ _ _ _ _ _ Hb Hget) as [-> ->].
  assert (Hord : QDate_le
                   (QDate_of (PyDatetime.ord2ymd
                                (PyDatetime.utc_ordinal (ts / 1000))))
                   (QDate_of (PyDatetime.ord2ymd
                                (PyDatetime.utc_ordinal now))) = true).
  { apply ord2ymd_mono. unfold PyDatetime.utc_ordinal.
    pose proof (Z.div_le_mono (ts / 1000) now 86400 ltac:(lia) Hle). lia. }
  split; [exact Hord |].
  rewrite set_start_date_for_csv_pair. cbn.
  split; [apply QDate_le_refl | exact Hord].
Qed.

(** X13. Given a list that is not a pair, [set_start_date_for_csv] raises
    TypeError when it sets the range of the calendar: the list has been
    stored by then, while the calendar, the status label and the generate
    button are as before. *)
Theorem set_start_date_for_csv_not_a_pair startEndList s :
  length startEndList ≠ 2%nat →
  let r := set_start_date_for_csv startEndList s in
  (∃ msg, fst r = Raise (TypeError msg))
  ∧ currentDateList (snd r) = Some startEndList
  ∧ ui (snd r) = ui s.
Proof.
  intros Hlen r. subst r.
  destruct startEndList as [| a [| b [| c rest]]]; try (now destruct Hlen);
    unfold set_start_date_for_csv, bind, modify, raise; simpl; eauto.
Qed.

End LookupDates.

(** X11 on the sample dialog: the earliest kline and the last millisecond
    of its day. *)
Lemma start_date_is_the_utc_day_witness :
  (mkQDate 2017 8 17 = mkQDate 2017 8 17
   ↔ 1502942400000 / 86400000 = 1503014399999 / 86400000)
  ∧ mkQDate 2021 3 1 = mkQDate 2021 3 1.
Proof.
  apply (start_date_is_the_utc_day Sample.convert_long_interval
           Sample.binanceClient Scenario.sameDay Sample.now Sample.s0
           1502942400000 1503014399999); reflexivity.
Defined.

(** X12 on the sample dialog. *)
Lemma lookup_range_is_ordered_witness :
  QDate_le (mkQDate 2017 8 17) (mkQDate 2021 3 1) = true
  ∧ let c := startDateCalendar
               (ui (snd (set_start_date_for_csv
                           [mkQDate 2017 8 17; mkQDate 2021 3 1] Sample.s0))) in
    QDate_le (minimumDate c) (selectedDate c) = true
    ∧ QDate_le (selectedDate c) (maximumDate c) = true.
Proof.
  apply (lookup_range_is_ordered Sample.convert_long_interval
           Sample.binanceClient Sample.now Sample.s0 1502942400000).
  - reflexivity.
  - vm_compute. discriminate.
  - reflexivity.
Defined.

(** X13 on the sample dialog: a list of one date. *)
Lemma set_start_date_for_csv_not_a_pair_witness :
  let r := set_start_date_for_csv [mkQDate 2017 8 17] Sample.s0 in
  (∃ msg, fst r = Raise (TypeError msg))
  ∧ currentDateList (snd r) = Some [mkQDate 2017 8 17]
  ∧ ui (snd r) = ui Sample.s0.
Proof.
  apply (set_start_date_for_csv_not_a_pair [mkQDate 2017 8 17] Sample.s0).
  discriminate.
Defined.

(** X6 on the sample dialog after the download was stopped once. *)
Lemma references_have_their_class_witness :
  (∀ t, csvThread (Sample.after Scenario.stopped) = Some t →
     ∃ r, heap (world (Sample.after Scenario.stopped)) !! t = Some r
          ∧ is_download r = true
          ∧ connections r = download_connections)
  ∧ (∀ t, setDateThread (Sample.after Scenario.stopped) = Some t →
       ∃ r, heap (world (Sample.after Scenario.stopped)) !! t = Some r
            ∧ is_worker r = true
            ∧ connections r = worker_connections)
  ∧ (∀ t, t ∈ stop_calls (world (Sample.after Scenario.stopped)) →
       ∃ r, heap (world (Sample.after Scenario.stopped)) !! t = Some r
            ∧ is_download r = true).
Proof.
  exact (references_have_their_class Sample.ROOT_DIR
           Sample.convert_long_interval (Sample.after Scenario.stopped)
           (after_reachable Scenario.stopped eq_refl)).
Defined.

(** The references of that state. *)
Example stopped_references :
  csvThread (Sample.after Scenario.stopped) = Some 1%nat
  ∧ setDateThread (Sample.after Scenario.stopped) = Some 0%nat
  ∧ stop_calls (world (Sample.after Scenario.stopped)) = [1%nat].
Proof. repeat split; vm_compute; reflexivity. Qed.

(** X7 on the sample dialog after the lookup. *)
Lemma stored_dates_are_calendar_range_witness :
  [mkQDate 2017 8 17; mkQDate 2021 3 1]
  = [minimumDate (startDateCalendar (ui (Sample.after Sample.lookup_done)));
     maximumDate (startDateCalendar (ui (Sample.after Sample.lookup_done)))].
Proof.
  apply (stored_dates_are_calendar_range Sample.ROOT_DIR
           Sample.convert_long_interval (Sample.after Sample.lookup_done)).
  - apply after_reachable. reflexivity.
  - vm_compute. reflexivity.
Defined.

(** X8 on the sample dialog without a parent window. *)
Lemma start_date_thread_without_parent_witness :
  let r := start_date_thread Scenario.orphan in
  fst r = Raise (AttributeError "'NoneType' object has no attribute 'logger'")
  ∧ csvGenerationTicker_focus (ui (snd r)) = false
  ∧ csvGenerationStatus (ui (snd r)) = "Searching for earliest start date.."
  ∧ csvGenerationProgressBar (ui (snd r)) = 0
  ∧ setDateThread (snd r) = setDateThread Scenario.orphan
  ∧ threadPool (snd r) = threadPool Scenario.orphan
  ∧ world (snd r) = world Scenario.orphan.
Proof.
  exact (start_date_thread_without_parent Scenario.orphan eq_refl).
Defined.

(** X10 on the sample dialog: the client answers a timestamp beyond the
    year 9999. *)
Lemma failed_lookup_blocks_generate_witness :
  let s := Sample.after [Sample.editing; WorkerStarts 0] in
  let s' := snd (handle Sample.ROOT_DIR Sample.convert_long_interval
                   (WorkerRuns 0 Scenario.farFuture Sample.now) s) in
  csvGenerationStatus (ui s') = str (ValueError "year is out of range")
  ∧ generateCSVButton (ui s') = false
  ∧ (∀ reply, enabled (Ui generateCSVButton_clicked reply) s' = false)
  ∧ currentDateList s' = currentDateList s
  ∧ startDateCalendar (ui s') = startDateCalendar (ui s)
  ∧ 0%nat ∉ threadPool s'.
Proof.
  apply (failed_lookup_blocks_generate Sample.ROOT_DIR
           Sample.convert_long_interval
           (Sample.after [Sample.editing; WorkerStarts 0]) 0%nat
           Scenario.farFuture Sample.now
           (ValueError "year is out of range")).
  - apply after_reachable. reflexivity.
  - vm_compute. reflexivity.
  - vm_compute. reflexivity.
Defined.

(** * Signals of the download thread, and what no event does *)

Section Signals.

Variable ROOT_DIR : string.
Variable convert_long_interval : string → string.

(** X14. The [finished] signal of a download thread is connected to
    nothing: in a reachable state its delivery leaves the dialog exactly
    as it is. *)
Theorem download_finished_is_not_connected s t l reply :
  reachable ROOT_DIR convert_long_interval s →
  enabled (DownloadEmits t finished (PList l) reply) s = true →
  handle ROOT_DIR convert_long_interval
    (DownloadEmits t finished (PList l) reply) s
  = (Ok tt, s).
Proof.
  intros Hwf%reachable_wf Hen.
  now rewrite (handle_download_emits _ _ _ _ _ _ _ Hwf Hen).
Qed.

(** X15. In a reachable state the [restore] signal of a download thread
    enables the generate button, disables the stop button and clears
    [csvThread]; after it the stop button cannot be clicked, and
    [stop_csv_generation] called all the same would signal nothing. *)
Theorem restore_ends_cancellation s t reply :
  reachable ROOT_DIR convert_long_interval s →
  enabled (DownloadEmits t restore PNone reply) s = true →
  let s' := snd (handle ROOT_DIR convert_long_interval
                   (DownloadEmits t restore PNone reply) s) in
  generateCSVButton (ui s') = true
  ∧ stopButton (ui s') = false
  ∧ csvThread s' = None
  ∧ (∀ reply', enabled (Ui stopButton_clicked reply') s' = false)
  ∧ stop_csv_generation s' = (Ok tt, s')
  ∧ stop_calls (world s') = stop_calls (world s).
Proof.
  intros Hwf%reachable_wf Hen s'. subst s'.
  rewrite (handle_download_emits _ _ _ _ _ _ _ Hwf Hen).
  repeat split.
Qed.

(** X16. In a reachable state the [locked] signal of a download thread
    disables the stop button and changes nothing else, so that the
    download can no longer be cancelled from the dialog. *)
Theorem locked_download_cannot_be_stopped s t reply :
  reachable ROOT_DIR convert_long_interval s →
  enabled (DownloadEmits t locked PNone reply) s = true →
  let r := handle ROOT_DIR convert_long_interval
             (DownloadEmits t locked PNone reply) s in
  r = (Ok tt, with_ui (stopButton_setEnabled false) s)
  ∧ (∀ reply', enabled (Ui stopButton_clicked reply') (snd r) = false).
Proof.
  intros Hwf%reachable_wf Hen r. subst r.
  rewrite (handle_download_emits _ _ _ _ _ _ _ Hwf Hen).
  repeat split.
Qed.

(** X17. In a reachable state with a stored date list, after
    [initiate_csv_generation] a click on stop calls [stop] on the thread
    just constructed; a thread [csvThread] referred to before is another
    one and is not signalled. *)
Theorem stop_reaches_newest_download_only s :
  reachable ROOT_DIR convert_long_interval s →
  is_Some (currentDateList s) →
  let s1 := snd (initiate_csv_generation convert_long_interval s) in
  let s2 := snd (stop_csv_generation s1) in
  stop_calls (world s2)
  = (stop_calls (world s) ++ [next_ref (world s)])%list
  ∧ (∀ t, csvThread s = Some t → t ≠ next_ref (world s)).
Proof.
  intros Hreach [l Hl] s1 s2. subst s1 s2.
  pose proof (reachable_wf _ _ _ Hreach) as Hwf.
  destruct (wf_dates _ Hwf _ Hl) as [[p Hp] Hlen].
  destruct l as [| first rest]; [discriminate Hlen |].
  rewrite (initiate_csv_generation_ok _ _ _ _ _ Hp Hl). split.
  - reflexivity.
  - intros t Ht.
    pose proof (csvThread_download _ (reachable_refs_ok _ _ _ Hreach) t Ht)
      as Hk.
    destruct (has_kind_inv _ _ _ Hk) as (r & Hr & _).
    destruct (wf_heap _ Hwf _ _ Hr) as (Hlt & _). lia.
Qed.

(** X18. [end_csv_generation] opens the saved file exactly if the user
    chooses Open in the box it shows; either way the box is shown, and
    neither [csvThread] nor the stop button changes. *)
Theorem end_csv_generation_opens_on_request savedPath choice s :
  let r := end_csv_generation savedPath choice s in
  fst r = Ok tt
  ∧ opened (world (snd r))
    = (opened (world s) ++ if decide (choice = Open) then [savedPath] else [])%list
  ∧ shown (world (snd r))
    = (shown (world s)
       ++ [information "Data saved successfully."
             ("Successfully saved CSV data to " +:+ savedPath +:+ ".")
             [Open; Close]])%list
  ∧ csvThread (snd r) = csvThread s
  ∧ stopButton (ui (snd r)) = stopButton (ui s).
Proof.
  destruct choice; cbn; rewrite ?app_nil_r; repeat split.
Qed.

Lemma purge_unconfirmed_filesystem directory answer s :
  answer ≠ Yes →
  filesystem (world (snd (purge ROOT_DIR directory answer s)))
  = filesystem (world s).
Proof.
  intros Hans.
  destruct (OS.path_exists (filesystem (world s))
              (OS.path_join ROOT_DIR directory)) eqn:Hex.
  - now rewrite (purge_declined _ _ _ _ Hans Hex).
  - now rewrite (purge_missing _ _ _ _ Hex).
Qed.

Lemma purge_next_ref directory answer s :
  next_ref (world (snd (purge ROOT_DIR directory answer s)))
  = next_ref (world s).
Proof.
  destruct (OS.path_exists (filesystem (world s))
              (OS.path_join ROOT_DIR directory)) eqn:Hex.
  - destruct (decide (answer = Yes)) as [-> | Hans].
    + rewrite (purge_confirmed _ _ _ Hex).
      destruct (String.eqb directory "Logs"); [| reflexivity].
      unfold renew_logger, bind, get_logger, set_parent_logger. simpl.
      destruct (parent s); reflexivity.
    + now rewrite (purge_declined _ _ _ _ Hans Hex).
  - now rewrite (purge_missing _ _ _ _ Hex).
Qed.

Lemma download_signal_world sig p reply s :
  let s' := snd (call_all (slots_of sig download_connections) p reply s) in
  filesystem (world s') = filesystem (world s)
  ∧ heap (world s') = heap (world s)
  ∧ next_ref (world s') = next_ref (world s).
Proof. destruct sig, p; simpl; auto; destruct reply; simpl; auto. Qed.

(** X19. In a reachable state no event but a click on a purge button that
    the user confirms changes the file system: the CSV workflow, the
    signals of the runnables and a purge that is declined or finds
    nothing leave every path as it is. *)
Theorem only_confirmed_purge_changes_files s ev :
  reachable ROOT_DIR convert_long_interval s →
  enabled ev s = true →
  is_confirmed_purge ev = false →
  filesystem (world (snd (handle ROOT_DIR convert_long_interval ev s)))
  = filesystem (world s).
Proof.
  intros Hwf%reachable_wf Hen Hev.
  destruct ev as [e reply | text | d | t | t b now | t sig p reply | t].
  - cbn [handle].
    destruct e; cbn [load_slots];
      try (apply purge_unconfirmed_filesystem; intros ->; discriminate Hev).
    + destruct (currentDateList s) as [[| first rest] |] eqn:Hl.
      * destruct (wf_dates _ Hwf _ Hl) as [_ Hlen]. discriminate Hlen.
      * destruct (wf_dates _ Hwf _ Hl) as [[p Hp] _].
        now rewrite (initiate_csv_generation_ok _ _ _ _ _ Hp Hl).
      * now rewrite (initiate_csv_generation_no_dates _ _ Hl).
    + unfold stop_csv_generation, bind, get, modify, ret. simpl.
      destruct (csvThread s); reflexivity.
    + destruct (parent s) as [p |] eqn:Hp.
      * now rewrite (start_date_thread_ok _ _ Hp).
      * now rewrite (start_date_thread_orphan _ Hp).
  - reflexivity.
  - reflexivity.
  - now rewrite (handle_worker_starts _ _ _ _ Hwf Hen).
  - cbn [handle enabled] in *.
    destruct (get_start_date_for_csv_outcome convert_long_interval b now s)
      as [(lo & hi & Hget) | (e & Hget)].
    + now rewrite (Worker_run_ok _ _ _ _ _ _ _ Hwf Hen Hget).
    + now rewrite (Worker_run_raise _ _ _ _ _ _ Hwf Hen Hget).
  - rewrite (handle_download_emits _ _ _ _ _ _ _ Hwf Hen).
    apply download_signal_world.
  - reflexivity.
Qed.

(** X20. In a reachable state no event removes or alters a runnable: each
    one stays on the heap with the arguments and the connections it was
    constructed with, and references are never handed out twice. *)
Theorem runnables_are_never_altered s ev t r :
  reachable ROOT_DIR convert_long_interval s →
  enabled ev s = true →
  heap (world s) !! t = Some r →
  let s' := snd (handle ROOT_DIR convert_long_interval ev s) in
  heap (world s') !! t = Some r
  ∧ (next_ref (world s) <= next_ref (world s'))%nat.
Proof.
  intros Hwf%reachable_wf Hen Hr s'. subst s'.
  destruct (wf_heap _ Hwf _ _ Hr) as (Hlt & _).
  destruct ev as [e reply | text | d | u | u b now | u sig p reply | u].
  - cbn [handle].
    destruct e; cbn [load_slots];
      try match goal with
          | |- context [purge ROOT_DIR ?d reply s] =>
              destruct (purge_frame ROOT_DIR d reply s)
                as (_ & _ & _ & _ & Hh & _);
              rewrite Hh, purge_next_ref; auto
          end.
    + destruct (currentDateList s) as [[| first rest] |] eqn:Hl.
      * destruct (wf_dates _ Hwf _ Hl) as [_ Hlen]. discriminate Hlen.
      * destruct (wf_dates _ Hwf _ Hl) as [[p Hp] _].
        rewrite (initiate_csv_generation_ok _ _ _ _ _ Hp Hl).
        cbn [snd download_started world heap next_ref].
        rewrite lookup_insert_ne by lia. split; [exact Hr | lia].
      * rewrite (initiate_csv_generation_no_dates _ _ Hl). auto.
    + unfold stop_csv_generation, bind, get, modify, ret. simpl.
      destruct (csvThread s); simpl; auto.
    + destruct (parent s) as [p |] eqn:Hp.
      * rewrite (start_date_thread_ok _ _ Hp).
        cbn [snd lookup_started world heap next_ref].
        rewrite lookup_insert_ne by lia. split; [exact Hr | lia].
      * rewrite (start_date_thread_orphan _ Hp). auto.
  - auto.
  - auto.
  - rewrite (handle_worker_starts _ _ _ _ Hwf Hen). auto.
  - cbn [handle enabled] in *.
    destruct (get_start_date_for_csv_outcome convert_long_interval b now s)
      as [(lo & hi & Hget) | (e & Hget)].
    + rewrite (Worker_run_ok _ _ _ _ _ _ _ Hwf Hen Hget). auto.
    + rewrite (Worker_run_raise _ _ _ _ _ _ Hwf Hen Hget). auto.
  - rewrite (handle_download_emits _ _ _ _ _ _ _ Hwf Hen).
    destruct (download_signal_world sig p reply s) as (_ & -> & ->). auto.
  - auto.
Qed.

End Signals.
